(** * Icon generation pipeline (generate_icons.py): model and properties

    The script reads an asset-catalogue manifest (Contents.json), derives
    a pixel size for every entry from its "size" and "scale" strings and
    calls the external tool [sips] once per renderable entry.

    The development has three layers:
    - [Py]: the fragment of the Python runtime the script relies on
      (exceptions, values produced by [json.load], truthiness, [float],
      [int], [str.split], [str.replace], [os.path.join], [repr]);
    - [Icons]: the script itself, as a state-and-exception computation
      over an explicit environment (file system, manifest, the tool);
    - the properties, one section per topic.

    Further down, [PyLib] and [Assets] model compress_images.py and
    migrate_images.py over a host that answers every call into the file
    system and the image library and keeps the history of these calls;
    [Guards] states what each call must come after.

    Strings are [string] (sequences of 8-bit characters); the model covers
    manifests whose strings are ASCII.  Floats are IEEE binary64, through
    the specification of the Standard Library ([SpecFloat], precision 53,
    emax 1024), so every arithmetic step rounds as CPython does. *)

From Stdlib Require Import ZArith QArith Qround String Ascii List.
From Stdlib Require Import Floats.SpecFloat.
From stdpp Require Import gmap strings list pretty.

Set Warnings "-register-all".
#[local] Open Scope Z_scope.

(** ** The Python runtime fragment *)
Module Py.

(** Exception classes that can reach the top level of the script. *)
Inductive exn : Type :=
| AttributeError
| TypeError
| ValueError
| OverflowError
| JSONDecodeError
| UnicodeDecodeError
| OSError (errname : string).

(** A computation that either returns or raises. *)
Inductive result (A : Type) : Type :=
| Ok (a : A)
| Raise (e : exn).
Arguments Ok {A} a.
Arguments Raise {A} e.

Definition rbind {A B} (r : result A) (k : A -> result B) : result B :=
  match r with
  | Ok a => k a
  | Raise e => Raise e
  end.

Notation "'let*' x ':=' r 'in' k" := (rbind r (fun x => k))
  (at level 10, x pattern, r at level 100, k at level 200).

(** *** Floats: IEEE binary64 *)

Definition prec : Z := 53.
Definition emax : Z := 1024.

Abbreviation float := spec_float.

(** [a * b] on floats. *)
Definition fmul (a b : float) : float := SFmul prec emax a b.

(** The float nearest to an integer ([float(n)] for an [int] n). *)
Definition float_of_Z (n : Z) : float := binary_normalize prec emax n 0 false.

Definition is_finite (f : float) : bool :=
  match f with
  | S754_zero _ | S754_finite _ _ _ => true
  | _ => false
  end.

Definition is_negative (f : float) : bool :=
  match f with
  | S754_finite true _ _ | S754_infinity true => true
  | _ => false
  end.

(** The exact rational value of a finite float (0 for the others). *)
Definition float_value (f : float) : Q :=
  match f with
  | S754_finite s m e =>
      let q := match e with
               | Z0 => Zpos m # 1
               | Zpos k => Zpos m * 2 ^ Zpos k # 1
               | Zneg k => Zpos m # 2 ^ k
               end in
      if s then Qopp q else q
  | _ => 0%Q
  end.

(** [int(f)]: truncation toward zero; infinities and NaN raise. *)
Definition py_int (f : float) : result Z :=
  match f with
  | S754_zero _ => Ok 0
  | S754_finite s m e =>
      let a := match e with
               | Z0 => Zpos m
               | Zpos k => Zpos m * 2 ^ Zpos k
               | Zneg k => Zpos m / 2 ^ Zpos k
               end in
      Ok (if s then - a else a)
  | S754_infinity _ => Raise OverflowError
  | S754_nan => Raise ValueError
  end.

(** [str(n)] for an [int]. *)
Definition py_str_of_int (n : Z) : string := pretty n.

(** *** Characters and [str] methods *)

Definition code (c : ascii) : N := N_of_ascii c.

Definition is_digit (c : ascii) : bool :=
  ((48 <=? code c) && (code c <=? 57))%N.

Definition digit_val (c : ascii) : Z := Z.of_N (code c) - 48.

(** Whitespace removed by [float] from an ASCII string: tab, LF, VT, FF,
    CR and the space. *)
Definition is_space (c : ascii) : bool :=
  (((9 <=? code c) && (code c <=? 13)) || (code c =? 32))%N.

Definition lower (c : ascii) : ascii :=
  if ((65 <=? code c) && (code c <=? 90))%N
  then ascii_of_N (code c + 32) else c.

(** [s.split(sep)] for a one-character separator: the pieces between the
    occurrences of [sep]; always at least one piece. *)
Fixpoint str_split (sep : ascii) (s : string) : list string :=
  match s with
  | EmptyString => [EmptyString]
  | String c s' =>
      if Ascii.eqb c sep then EmptyString :: str_split sep s'
      else match str_split sep s' with
           | p :: ps => String c p :: ps
           | [] => [String c EmptyString]
           end
  end.

(** [s.replace(old, new)] for a one-character [old]. *)
Fixpoint str_replace (old : ascii) (new : string) (s : string) : string :=
  match s with
  | EmptyString => EmptyString
  | String c s' =>
      if Ascii.eqb c old then new +:+ str_replace old new s'
      else String c (str_replace old new s')
  end.

(** [os.path.join(a, b)] (posixpath): an absolute [b] discards [a]. *)
Definition os_path_join (a b : string) : string :=
  match b with
  | String "/" _ => b
  | _ =>
      match a with
      | EmptyString => b
      | _ => if String.eqb (substring (String.length a - 1) 1 a) "/"
             then a +:+ b else a +:+ "/" +:+ b
      end
  end.

(** *** [float(s)] for a string

    CPython's [PyFloat_FromString]: underscores are accepted between
    digits and dropped, surrounding whitespace is stripped, and the rest
    is either a decimal numeral (correctly rounded, overflow gives an
    infinity) or one of inf, infinity, nan with an optional sign. *)

(** Drops the underscores; [None] when one is not between two digits. *)
Fixpoint strip_underscores (prev : ascii) (l : list ascii)
  : option (list ascii) :=
  match l with
  | [] => if Ascii.eqb prev "_" then None else Some []
  | c :: l' =>
      if Ascii.eqb c "_" then
        if is_digit prev then strip_underscores c l' else None
      else if Ascii.eqb prev "_" && negb (is_digit c) then None
      else option_map (cons c) (strip_underscores c l')
  end.

Fixpoint drop_while (p : ascii -> bool) (l : list ascii) : list ascii :=
  match l with
  | c :: l' => if p c then drop_while p l' else l
  | [] => []
  end.

Fixpoint span (p : ascii -> bool) (l : list ascii)
  : list ascii * list ascii :=
  match l with
  | c :: l' =>
      if p c then let '(a, b) := span p l' in (c :: a, b) else ([], l)
  | [] => ([], [])
  end.

Definition strip_spaces (l : list ascii) : list ascii :=
  rev (drop_while is_space (rev (drop_while is_space l))).

Definition take_sign (l : list ascii) : bool * list ascii :=
  match l with
  | "-"%char :: l' => (true, l')
  | "+"%char :: l' => (false, l')
  | _ => (false, l)
  end.

Definition digits_to_Z (ds : list ascii) : Z :=
  fold_left (fun acc c => 10 * acc + digit_val c) ds 0.

(** The float nearest (ties to even) to [m * 10 ^ k], for [0 <= m]. *)
Definition decimal_to_float (neg : bool) (m k : Z) : float :=
  match m with
  | Zpos p =>
      if 0 <=? k then binary_round prec emax neg (Z.to_pos (Zpos p * 10 ^ k)) 0
      else
        let '(q, e, l) :=
          SFdiv_core_binary prec emax (Zpos p) 0 (10 ^ (- k)) 0 in
        binary_round_aux prec emax neg q e l
  | _ => S754_zero neg
  end.

(** An exponent part; when there is none (or it has no digit) nothing is
    consumed. *)
Definition take_exponent (l : list ascii) : Z * list ascii :=
  match l with
  | c :: l1 =>
      if Ascii.eqb (lower c) "e" then
        let '(neg, l2) := take_sign l1 in
        let '(ds, l3) := span is_digit l2 in
        match ds with
        | [] => (0, l)
        | _ => (if neg then - digits_to_Z ds else digits_to_Z ds, l3)
        end
      else (0, l)
  | [] => (0, l)
  end.

Definition parse_decimal (l : list ascii) : option float :=
  let '(neg, l1) := take_sign l in
  let '(ip, l2) := span is_digit l1 in
  let '(fp, l3) := match l2 with
                   | "."%char :: r => span is_digit r
                   | _ => ([], l2)
                   end in
  match ip ++ fp with
  | [] => None
  | ds =>
      let '(ex, l4) := take_exponent l3 in
      match l4 with
      | [] => Some (decimal_to_float neg (digits_to_Z ds)
                      (ex - Z.of_nat (length fp)))
      | _ => None
      end
  end.

Definition parse_inf_or_nan (l : list ascii) : option float :=
  let '(neg, l1) := take_sign l in
  let w := string_of_list_ascii (map lower l1) in
  if String.eqb w "inf" || String.eqb w "infinity"
  then Some (S754_infinity neg)
  else if String.eqb w "nan" then Some S754_nan
  else None.

Definition py_float (s : string) : result float :=
  match strip_underscores "000" (list_ascii_of_string s) with
  | None => Raise ValueError
  | Some l =>
      let body := strip_spaces l in
      match parse_decimal body with
      | Some f => Ok f
      | None =>
          match parse_inf_or_nan body with
          | Some f => Ok f
          | None => Raise ValueError
          end
      end
  end.

(** *** Values, as [json.load] builds them *)

Inductive pyval : Type :=
| PNone
| PBool (b : bool)
| PInt (n : Z)
| PFloat (f : float)
| PStr (s : string)
| PList (l : list pyval)
| PDict (d : gmap string pyval).

(** Truth value of an object ([not v] is its negation). *)
Definition truthy (v : pyval) : bool :=
  match v with
  | PNone => false
  | PBool b => b
  | PInt n => negb (n =? 0)
  | PFloat (S754_zero _) => false
  | PFloat _ => true
  | PStr s => negb (String.eqb s EmptyString)
  | PList l => match l with [] => false | _ => true end
  | PDict d => negb (bool_decide (d = ∅))
  end.

(** [v.get(key, default)]: only a dict has the method. *)
Definition py_get (v : pyval) (key : string) (default : pyval)
  : result pyval :=
  match v with
  | PDict d => Ok (match d !! key with Some x => x | None => default end)
  | _ => Raise AttributeError
  end.

(** The items a [for] loop visits.  A dict yields its keys and a string
    its characters; the order of the keys of a dict is not modelled (the
    script fails on the first key whichever it is). *)
Definition py_iter (v : pyval) : result (list pyval) :=
  match v with
  | PList l => Ok l
  | PDict d => Ok (map (fun kv => PStr (fst kv)) (map_to_list d))
  | PStr s =>
      Ok (map (fun c => PStr (String c EmptyString)) (list_ascii_of_string s))
  | _ => Raise TypeError
  end.

(** *** [repr] of strings and lists of strings *)

Definition hex_digit (n : N) : ascii :=
  if (n <? 10)%N then ascii_of_N (48 + n) else ascii_of_N (87 + n).

Definition dquote : ascii := ascii_of_N 34.

Definition repr_char (quote c : ascii) : string :=
  if Ascii.eqb c quote || Ascii.eqb c "\" then
    String "\" (String c EmptyString)
  else if Ascii.eqb c "009" then "\t"
  else if Ascii.eqb c "010" then "\n"
  else if Ascii.eqb c "013" then "\r"
  else if ((code c <? 32) || (code c =? 127))%N then
    String "\" (String "x" (String (hex_digit (code c / 16))
                              (String (hex_digit (code c mod 16)) EmptyString)))
  else String c EmptyString.

Definition has_char (c : ascii) (s : string) : bool :=
  existsb (Ascii.eqb c) (list_ascii_of_string s).

Definition py_repr_str (s : string) : string :=
  let quote : ascii :=
    if has_char "'" s && negb (has_char dquote s) then dquote
    else "'"%char in
  String quote
    (fold_right (fun c acc => repr_char quote c +:+ acc)
       (String quote EmptyString) (list_ascii_of_string s)).

Fixpoint join (sep : string) (l : list string) : string :=
  match l with
  | [] => EmptyString
  | [x] => x
  | x :: l' => x +:+ sep +:+ join sep l'
  end.

Definition py_repr_list (l : list string) : string :=
  "[" +:+ join ", " (map py_repr_str l) +:+ "]".

End Py.

(** ** The script *)
Module Icons.
Import Py.

(** *** Environment and state *)

(** What [open] followed by [json.load] does on a path that exists. *)
Inductive load_outcome : Type :=
| Loaded (contents : pyval)
| LoadRaises (e : exn).

(** What [subprocess.run(argv, check=True, capture_output=True)] observes:
    the process ran and exited with a return code (negative: killed by
    that signal), or it could not be started and [run] itself raised. *)
Inductive run_outcome : Type :=
| Exited (returncode : Z)
| RunRaises (e : exn).

Record world : Type := {
  path_exists : string -> bool;
  json_load : string -> load_outcome;
  (** outcome of the n-th process the script starts, given its argv *)
  subprocess_run : nat -> list string -> run_outcome;
  (** [repr(signal.Signals(n))], where the platform names signal n *)
  signal_repr : Z -> option string
}.

Record call : Type := {
  argv : list string;
  outcome : run_outcome
}.

Record state : Type := {
  stdout : list string;
  calls : list call
}.

Definition initial : state := {| stdout := []; calls := [] |}.

(** Computations of the script: they read and extend the state, and
    return or raise. *)
Definition M (A : Type) : Type := state -> state * result A.

Definition ret {A} (a : A) : M A := fun st => (st, Ok a).
Definition raise {A} (e : exn) : M A := fun st => (st, Raise e).
Definition lift {A} (r : result A) : M A := fun st => (st, r).
Definition bind {A B} (m : M A) (k : A -> M B) : M B :=
  fun st =>
    match m st with
    | (st', Ok a) => k a st'
    | (st', Raise e) => (st', Raise e)
    end.

Notation "'let!' x ':=' m 'in' k" := (bind m (fun x => k))
  (at level 10, x pattern, m at level 100, k at level 200).

Definition print (line : string) : M unit :=
  fun st => ({| stdout := stdout st ++ [line]; calls := calls st |}, Ok tt).

(** [for x in l: body(x)], where [continue] is [ret tt]. *)
Fixpoint for_each {A} (body : A -> M unit) (l : list A) : M unit :=
  match l with
  | [] => ret tt
  | x :: l' => let! _ := body x in for_each body l'
  end.

(** [str(e)] for the [CalledProcessError] raised on a non-zero exit. *)
Definition str_CalledProcessError (w : world) (returncode : Z)
    (cmd : list string) : string :=
  if returncode <? 0 then
    match signal_repr w (- returncode) with
    | Some sig => "Command '" +:+ py_repr_list cmd +:+ "' died with "
                    +:+ sig +:+ "."
    | None => "Command '" +:+ py_repr_list cmd
                +:+ "' died with unknown signal "
                +:+ py_str_of_int (- returncode) +:+ "."
    end
  else "Command '" +:+ py_repr_list cmd
         +:+ "' returned non-zero exit status "
         +:+ py_str_of_int returncode +:+ ".".

(** *** Configuration *)

Definition SOURCE_ICON : string := "../icon.png".
Definition DEST_DIR : string :=
  "../PDFScanner/Assets.xcassets/AppIcon.appiconset".
Definition CONTENTS_JSON_PATH : string :=
  os_path_join DEST_DIR "Contents.json".

(** *** resize_image *)

Definition sips_argv (source dest : string) (width height : Z)
  : list string :=
  ["sips"; "-z"; py_str_of_int height; py_str_of_int width;
   source; "--out"; dest].

Definition generated_line (dest : string) (width height : Z) : string :=
  "Generated: " +:+ dest +:+ " (" +:+ py_str_of_int width +:+ "x"
    +:+ py_str_of_int height +:+ ")".

Definition error_line (w : world) (dest : string) (returncode : Z)
    (cmd : list string) : string :=
  "Error generating " +:+ dest +:+ ": "
    +:+ str_CalledProcessError w returncode cmd.

Definition resize_image (w : world) (source dest : string)
    (width height : Z) : M unit :=
  fun st =>
    let cmd := sips_argv source dest width height in
    let o := subprocess_run w (length (calls st)) cmd in
    let st' := {| stdout := stdout st;
                  calls := calls st ++ [{| argv := cmd; outcome := o |}] |} in
    match o with
    | Exited 0 => print (generated_line dest width height) st'
    | Exited rc => print (error_line w dest rc cmd) st'
    | RunRaises e => raise e st'
    end.

(** *** main *)

(** Line 48: [map(float, size_str.split('x'))] unpacked into two names.
    The map is lazy: a third piece is converted before the unpacking
    reports that there are too many. *)
Definition parse_size (size_str : pyval) : result (float * float) :=
  let* parts := match size_str with
                | PStr s => Ok (str_split "x" s)
                | _ => Raise AttributeError
                end in
  match parts with
  | [a; b] =>
      let* width_pt := py_float a in
      let* height_pt := py_float b in
      Ok (width_pt, height_pt)
  | [a] => let* _ := py_float a in Raise ValueError
  | a :: b :: c :: _ =>
      let* _ := py_float a in
      let* _ := py_float b in
      let* _ := py_float c in
      Raise ValueError
  | [] => Raise ValueError
  end.

(** Line 51: [float(scale_str.replace('x', ''))]. *)
Definition parse_scale (scale_str : pyval) : result float :=
  match scale_str with
  | PStr s => py_float (str_replace "x" EmptyString s)
  | _ => Raise AttributeError
  end.

(** Lines 48-55: the pixel size of an entry from its two fields. *)
Definition pixel_size (size_str scale_str : pyval) : result (Z * Z) :=
  let* (width_pt, height_pt) := parse_size size_str in
  let* scale := parse_scale scale_str in
  let* width_px := py_int (fmul width_pt scale) in
  let* height_px := py_int (fmul height_pt scale) in
  Ok (width_px, height_px).

(** Lines 40-60: the body of the loop over the entries. *)
Definition loop_body (w : world) (image : pyval) : M unit :=
  let! filename := lift (py_get image "filename" PNone) in
  let! size_str := lift (py_get image "size" PNone) in
  let! scale_str := lift (py_get image "scale" PNone) in
  if negb (truthy filename) || negb (truthy size_str)
     || negb (truthy scale_str)
  then ret tt
  else
    let! (width_px, height_px) := lift (pixel_size size_str scale_str) in
    let! dest_path := lift match filename with
                           | PStr f => Ok (os_path_join DEST_DIR f)
                           | _ => Raise TypeError
                           end in
    resize_image w SOURCE_ICON dest_path width_px height_px.

Definition main (w : world) : M unit :=
  if negb (path_exists w SOURCE_ICON) then
    print ("Error: Source icon '" +:+ SOURCE_ICON
             +:+ "' not found in current directory.")
  else if negb (path_exists w CONTENTS_JSON_PATH) then
    print ("Error: Contents.json not found at '" +:+ CONTENTS_JSON_PATH
             +:+ "'")
  else
    let! contents := lift match json_load w CONTENTS_JSON_PATH with
                          | Loaded v => Ok v
                          | LoadRaises e => Raise e
                          end in
    let! _ := print ("Processing icons from " +:+ SOURCE_ICON +:+ "...") in
    let! images := lift (py_get contents "images" (PList [])) in
    let! items := lift (py_iter images) in
    let! _ := for_each (loop_body w) items in
    print "Icon generation complete!".

(** Destinations the tool was asked to write and reported written. *)
Definition call_dest (c : call) : string := List.last (argv c) EmptyString.

Definition succeeded (c : call) : bool :=
  match outcome c with
  | Exited 0 => true
  | _ => false
  end.

Definition failed (c : call) : bool :=
  match outcome c with
  | Exited 0 => false
  | _ => true
  end.

Definition output_files (st : state) : list string :=
  map call_dest (List.filter succeeded (calls st)).

End Icons.

(** ** What the specification says, and observers of a run *)
Module Spec.
Import Py Icons.

(** Rounding to the nearest integer, ties away from zero. *)
Definition round_half_away (q : Q) : Z :=
  if Qle_bool 0 q then Qfloor (q + (1 # 2)) else Qceiling (q - (1 # 2)).

(** The pixel size of the data model:
    (round(width * scaleFactor), round(height * scaleFactor)), the
    products being those of the real numbers. *)
Definition rounded_pixel_size (width_pt height_pt scale : float) : Z * Z :=
  (round_half_away (float_value width_pt * float_value scale),
   round_half_away (float_value height_pt * float_value scale)).

(** A point size is a non-negative real, a scale factor a positive one. *)
Definition non_negative (f : float) : bool :=
  match f with
  | S754_zero _ | S754_finite false _ _ => true
  | _ => false
  end.

Definition positive (f : float) : bool :=
  match f with
  | S754_finite false _ _ => true
  | _ => false
  end.

(** A string with every occurrence of a character deleted. *)
Definition delete_all (c : ascii) (s : string) : string :=
  string_of_list_ascii
    (List.filter (fun a => negb (Ascii.eqb a c)) (list_ascii_of_string s)).

(** The field of an entry, as [image.get(key)] returns it. *)
Definition field (d : gmap string pyval) (key : string) : pyval :=
  match d !! key with
  | Some v => v
  | None => PNone
  end.

(** An entry passes the guard of line 44: its three fields are present
    and none is empty. *)
Definition renderable (image : pyval) : bool :=
  match image with
  | PDict d =>
      truthy (field d "filename") && truthy (field d "size")
      && truthy (field d "scale")
  | _ => false
  end.

(** The command a renderable entry leads to, when its fields parse. *)
Definition entry_argv (image : pyval) : option (list string) :=
  match image with
  | PDict d =>
      if renderable image then
        match field d "filename", pixel_size (field d "size") (field d "scale")
        with
        | PStr f, Ok (width_px, height_px) =>
            Some (sips_argv SOURCE_ICON (os_path_join DEST_DIR f)
                    width_px height_px)
        | _, _ => None
        end
      else None
  | _ => None
  end.



(** The line of the log a finished call accounts for. *)
Definition report_line (w : world) (c : call) : option string :=
  match argv c, outcome c with
  | [_; _; height; width; _; _; dest], Exited 0 =>
      Some ("Generated: " +:+ dest +:+ " (" +:+ width +:+ "x" +:+ height
              +:+ ")")
  | [_; _; _; _; _; _; dest], Exited rc =>
      Some ("Error generating " +:+ dest +:+ ": "
              +:+ str_CalledProcessError w rc (argv c))
  | _, _ => None
  end.

(** Invariant of the loop: after the lines in [prefix], the log holds
    exactly the report lines of the calls made so far, in order. *)
Definition logged (w : world) (prefix : list string) (st : state) : Prop :=
  stdout st = prefix ++ omap (report_line w) (calls st).

(** A call made by [resize_image] on the source image that ran to an exit
    status, with the line that reports it: the destination and the size
    when the status is 0, the destination and the cause otherwise. *)
Definition reported (w : world) (c : call) : Prop :=
  exists (dest : string) (width height rc : Z),
    c = {| argv := sips_argv SOURCE_ICON dest width height;
           outcome := Exited rc |}
    /\ report_line w c
       = Some (if rc =? 0 then generated_line dest width height
               else error_line w dest rc (argv c)).

(** A run completed: it returned and its last line is the completion
    notice. *)
Definition completed (r : state * result unit) : bool :=
  match snd r with
  | Ok _ =>
      bool_decide (List.last (stdout (fst r)) EmptyString
                   = "Icon generation complete!")
  | Raise _ => false
  end.

(** Counts of the final report: items generated, items failed. *)
Definition counts (st : state) : nat * nat :=
  (length (List.filter succeeded (calls st)),
   length (List.filter failed (calls st))).

End Spec.

(** ** Manifests and environments used as concrete inputs *)
Module Inputs.
Import Py Icons.

Definition entry (filename size scale : string) : pyval :=
  PDict (<["filename" := PStr filename]>
           (<["size" := PStr size]> (<["scale" := PStr scale]> ∅))).

Definition manifest (images : list pyval) : pyval :=
  PDict {["images" := PList images]}.

(** Both files exist, the manifest loads to [v], the tool behaves as
    [run], and no signal has a name. *)
Definition world_of (v : load_outcome)
    (run : nat -> list string -> run_outcome) : world :=
  {| path_exists := fun _ => true;
     json_load := fun _ => v;
     subprocess_run := run;
     signal_repr := fun _ => None |}.

Definition always (o : run_outcome) : nat -> list string -> run_outcome :=
  fun _ _ => o.

(** The three sizes the specification lists. *)
Definition listed : list pyval :=
  [entry "a.png" "20x20" "2x"; entry "b.png" "29x29" "3x";
   entry "c.png" "83.5x83.5" "2x"].

(** 83.5 and 1.0 as floats (both exact). *)
Definition pt_83_5 : float := S754_finite false 5875790138834944 (-46).
Definition one : float := float_of_Z 1.

(** An entry of an image set, as migrate_images.py writes it: a file
    name and a scale, no size. *)
Definition imageset_entry : pyval :=
  PDict (<["filename" := PStr "Carousel1.jpg"]>
           (<["idiom" := PStr "universal"]> (<["scale" := PStr "1x"]> ∅))).

End Inputs.

(** ** Further observers of the icon script *)
Module Observers.
Import Py Icons Spec.

(** Truncation toward zero. *)
Definition truncate (q : Q) : Z :=
  if Qle_bool 0 q then Qfloor q else Qceiling q.

(** The exceptions an entry can raise before the tool is called. *)
Definition entry_error (e : exn) : bool :=
  match e with
  | AttributeError | ValueError | OverflowError | TypeError => true
  | _ => false
  end.

(** Values that a loop walks although they are not lists: a string
    (character by character) and an object (key by key). *)
Definition walks_without_list (v : pyval) : bool :=
  match v with
  | PStr _ | PDict _ => true
  | _ => false
  end.

Definition starts_with_slash (f : string) : bool :=
  match f with
  | String "/" _ => true
  | _ => false
  end.

(** The float a numeral reads as (NaN when [float] rejects it). *)
Definition the_float (s : string) : float :=
  match py_float s with
  | Ok f => f
  | Raise _ => S754_nan
  end.

End Observers.

(** ** More of the runtime, for the two scripts that move image files *)
Module PyLib.
Import Py.

(** An exception instance: its class and the text [str(e)] gives. *)
Record exc : Type := {
  exc_class : string;
  exc_str : string
}.

(** What a call into a library does: it returns a value or raises. *)
Inductive reply (A : Type) : Type :=
| Returns (a : A)
| Raises (e : exc).
Arguments Returns {A} a.
Arguments Raises {A} e.

(** [s.rfind(c)]: the index of the last occurrence of a character, -1
    when there is none. *)
Fixpoint rfind_from (c : ascii) (s : string) (i last : Z) : Z :=
  match s with
  | EmptyString => last
  | String a s' =>
      rfind_from c s' (i + 1) (if Ascii.eqb a c then i else last)
  end.

Definition rfind (c : ascii) (s : string) : Z := rfind_from c s 0 (-1).

(** [s[i:j]] for [0 <= i]. *)
Definition slice (s : string) (i j : Z) : string :=
  substring (Z.to_nat i) (Z.to_nat (j - i)) s.

(** [os.path.splitext(p)] (posixpath): the extension starts at the last
    dot of the last component, unless only dots come before it there.
    The loop of the library returns at the first character of the
    component, before the last dot, that is not a dot. *)
Definition splitext (p : string) : string * string :=
  let sepIndex := rfind "/" p in
  let dotIndex := rfind "." p in
  if sepIndex <? dotIndex then
    if forallb (fun c => Ascii.eqb c ".")
         (list_ascii_of_string (slice p (sepIndex + 1) dotIndex))
    then (p, EmptyString)
    else (slice p 0 dotIndex,
          slice p dotIndex (Z.of_nat (String.length p)))
  else (p, EmptyString).

(** [a / b] on [int]s: the correctly rounded quotient, or an error when
    it is too large for a float. *)
Definition py_true_div (a b : Z) : reply float :=
  if b =? 0 then
    Raises {| exc_class := "ZeroDivisionError";
              exc_str := "division by zero" |}
  else
    let neg := xorb (a <? 0) (b <? 0) in
    match Z.abs a with
    | Zpos n =>
        let '(q, e, l) :=
          SFdiv_core_binary prec emax (Zpos n) 0 (Z.abs b) 0 in
        match binary_round_aux prec emax neg q e l with
        | S754_infinity _ =>
            Raises {| exc_class := "OverflowError";
                      exc_str := "integer division result too large for a float" |}
        | f => Returns f
        end
    | _ => Returns (S754_zero neg)
    end.

(** The integer nearest to [num / den], ties to even, for [0 < den]. *)
Definition round_half_even (num den : Z) : Z :=
  let q := num / den in
  let r := num mod den in
  match 2 * r ?= den with
  | Lt => q
  | Gt => q + 1
  | Eq => if Z.even q then q else q + 1
  end.

Definition two_digits (n : Z) : string :=
  if n <? 10 then "0" +:+ pretty n else pretty n.

(** [format(f, ".2f")]: the exact value rounded to two decimals. *)
Definition format_2f (f : float) : string :=
  match f with
  | S754_nan => "nan"
  | S754_infinity s => if s then "-inf" else "inf"
  | S754_zero s => if s then "-0.00" else "0.00"
  | S754_finite s m e =>
      let hundredths :=
        match e with
        | Zneg k => round_half_even (Zpos m * 100) (2 ^ Zpos k)
        | _ => Zpos m * 2 ^ e * 100
        end in
      (if s then "-" else EmptyString)
        +:+ pretty (hundredths / 100) +:+ "."
        +:+ two_digits (hundredths mod 100)
  end.

End PyLib.

(** ** compress_images.py and migrate_images.py *)
Module Assets.
Import Py PyLib.

(** *** The host: every call that touches the file system or an image *)

Inductive effect : Type :=
| os_makedirs (path : string)
| shutil_copy2 (src dst : string)
(** [with open(path, 'w') as f: json.dump(contents, f, indent=2)] *)
| json_dump (path : string) (contents : pyval)
| os_remove (path : string)
| Image_open (path : string)
(** [img.convert(mode)] on the image opened from [path] *)
| Image_convert (path mode : string)
| Image_save (path format : string) (quality : Z) (optimize : bool)
(** leaving the [with] block of the image opened from [path] *)
| Image_close (path : string).

Inductive event : Type :=
| Exists (path : string) (answer : bool)
| GetSize (path : string) (answer : reply Z)
| Did (c : effect) (error : option exc).

(** The host answers each call knowing what happened before.  The
    exceptions it raises are instances of [Exception]. *)
Record host : Type := {
  exists_now : list event -> string -> bool;
  getsize_now : list event -> string -> reply Z;
  perform : list event -> effect -> option exc
}.

Record run : Type := {
  printed : list string;
  history : list event
}.

Definition fresh : run := {| printed := []; history := [] |}.

Definition Script (A : Type) : Type := run -> run * reply A.

Definition skip {A} (a : A) : Script A := fun st => (st, Returns a).
Definition pure {A} (r : reply A) : Script A := fun st => (st, r).
Definition andthen {A B} (m : Script A) (k : A -> Script B) : Script B :=
  fun st =>
    match m st with
    | (st', Returns a) => k a st'
    | (st', Raises e) => (st', Raises e)
    end.

Notation "'let+' x ':=' m 'in' k" := (andthen m (fun x => k))
  (at level 10, x pattern, m at level 100, k at level 200).

Definition say (line : string) : Script unit :=
  fun st => ({| printed := printed st ++ [line]; history := history st |},
             Returns tt).

Definition note (ev : event) (st : run) : run :=
  {| printed := printed st; history := history st ++ [ev] |}.

Definition os_path_exists (h : host) (path : string) : Script bool :=
  fun st =>
    let answer := exists_now h (history st) path in
    (note (Exists path answer) st, Returns answer).

Definition os_path_getsize (h : host) (path : string) : Script Z :=
  fun st =>
    let answer := getsize_now h (history st) path in
    (note (GetSize path answer) st, answer).

Definition invoke (h : host) (c : effect) : Script unit :=
  fun st =>
    let error := perform h (history st) c in
    (note (Did c error) st,
     match error with
     | None => Returns tt
     | Some e => Raises e
     end).

(** [try: body / except Exception as e: handler(e)]. *)
Definition try_except (body : Script unit) (handler : exc -> Script unit)
  : Script unit :=
  fun st =>
    match body st with
    | (st', Returns a) => (st', Returns a)
    | (st', Raises e) => handler e st'
    end.

(** [with Image.open(path) as img: body]: the image is closed when the
    block is left, also by an exception; an exception raised by the
    closing replaces the one of the block. *)
Definition with_image {A} (h : host) (path : string) (body : Script A)
  : Script A :=
  let+ _ := invoke h (Image_open path) in
  fun st =>
    match body st with
    | (st', r) =>
        match invoke h (Image_close path) st' with
        | (st'', Returns _) => (st'', r)
        | (st'', Raises e) => (st'', Raises e)
        end
    end.

Fixpoint for_files (body : string -> Script unit) (files : list string)
  : Script unit :=
  match files with
  | [] => skip tt
  | f :: files' => let+ _ := body f in for_files body files'
  end.

(** *** compress_images.py *)

Definition new_name (filename : string) : string :=
  fst (splitext filename) +:+ ".jpg".

(** Lines 9-38: the body of the loop. *)
Definition compress_one (h : host) (directory filename : string)
  : Script unit :=
  let filepath := os_path_join directory filename in
  let+ found := os_path_exists h filepath in
  if negb found then say ("File not found: " +:+ filepath)
  else
    try_except
      (with_image h filepath
         (let+ _ := invoke h (Image_convert filepath "RGB") in
          let new_filename := new_name filename in
          let new_filepath := os_path_join directory new_filename in
          let+ _ := invoke h (Image_save new_filepath "JPEG" 70 true) in
          let+ _ := say ("Compressed " +:+ filename +:+ " to "
                           +:+ new_filename) in
          let+ original_size := os_path_getsize h filepath in
          let+ new_size := os_path_getsize h new_filepath in
          let+ original_kb := pure (py_true_div original_size 1024) in
          let+ new_kb := pure (py_true_div new_size 1024) in
          let+ _ := say ("Size reduction: " +:+ format_2f original_kb
                           +:+ "KB -> " +:+ format_2f new_kb +:+ "KB") in
          invoke h (os_remove filepath)))
      (fun e => say ("Error processing " +:+ filename +:+ ": "
                       +:+ exc_str e)).

Definition compress_directory : string := "PDFScanner/Resources/Images".
Definition compress_files : list string :=
  ["Carousel1.png"; "Carousel2.png"; "Carousel3.png"].

Definition compress_images (h : host) : Script unit :=
  for_files (compress_one h compress_directory) compress_files.

(** *** migrate_images.py *)

(** Lines 30-50: the manifest written beside a migrated image. *)
Definition imageset_contents (image_file : string) : pyval :=
  PDict
    (<["images" :=
         PList
           [PDict (<["filename" := PStr image_file]>
                     (<["idiom" := PStr "universal"]>
                        (<["scale" := PStr "1x"]> ∅)));
            PDict (<["idiom" := PStr "universal"]>
                     (<["scale" := PStr "2x"]> ∅));
            PDict (<["idiom" := PStr "universal"]>
                     (<["scale" := PStr "3x"]> ∅))]]>
       (<["info" :=
            PDict (<["author" := PStr "xcode"]>
                     (<["version" := PInt 1]> ∅))]> ∅)).

(** Lines 12-61: the body of the loop. *)
Definition migrate_one (h : host) (source_dir assets_dir image_file : string)
  : Script unit :=
  let image_name := fst (splitext image_file) in
  let imageset_dir := os_path_join assets_dir (image_name +:+ ".imageset") in
  let+ there := os_path_exists h imageset_dir in
  let+ _ := if negb there then
              let+ _ := invoke h (os_makedirs imageset_dir) in
              say ("Created directory: " +:+ imageset_dir)
            else skip tt in
  let source_path := os_path_join source_dir image_file in
  let dest_path := os_path_join imageset_dir image_file in
  let+ found := os_path_exists h source_path in
  if found then
    let+ _ := invoke h (shutil_copy2 source_path dest_path) in
    let+ _ := say ("Copied " +:+ image_file +:+ " to assets") in
    let contents := imageset_contents image_file in
    let json_path := os_path_join imageset_dir "Contents.json" in
    let+ _ := invoke h (json_dump json_path contents) in
    let+ _ := say ("Created Contents.json for " +:+ image_name) in
    let+ _ := invoke h (os_remove source_path) in
    say ("Removed original " +:+ image_file)
  else say ("Source file not found: " +:+ source_path).

Definition migrate_source_dir : string := "PDFScanner/Resources/Images".
Definition migrate_assets_dir : string := "PDFScanner/Assets.xcassets".
Definition migrate_images : list string :=
  ["Carousel1.jpg"; "Carousel2.jpg"; "Carousel3.jpg"].

Definition migrate_to_assets (h : host) : Script unit :=
  for_files (migrate_one h migrate_source_dir migrate_assets_dir)
    migrate_images.

End Assets.

(** ** Observers of the histories of the two scripts *)
Module Guards.
Import Py PyLib Assets.

(** A condition on an event and the events that came before it. *)
Definition guard : Type := list event -> event -> Prop.

(** Every event of a history meets the guard. *)
Definition always_preceded (P : guard) (evs : list event) : Prop :=
  forall pre ev post, evs = pre ++ ev :: post -> P pre ev.

(** The same, walking the history once. *)
Fixpoint guarded_from (P : guard) (seen evs : list event) : Prop :=
  match evs with
  | [] => True
  | ev :: rest => P seen ev /\ guarded_from P (seen ++ [ev]) rest
  end.

(** The paths asked to [os.path.exists], in order. *)
Definition exists_checked (evs : list event) : list string :=
  omap (fun ev => match ev with Exists p _ => Some p | _ => None end) evs.

(** The errors raised by the host, in order. *)
Definition failures (evs : list event) : list exc :=
  omap (fun ev => match ev with
                  | Did _ (Some e) => Some e
                  | GetSize _ (Raises e) => Some e
                  | _ => None
                  end) evs.

(** Images opened, and images closed. *)
Definition opened (evs : list event) : nat :=
  length (List.filter (fun ev => match ev with
                                 | Did (Image_open _) None => true
                                 | _ => false
                                 end) evs).

Definition closed (evs : list event) : nat :=
  length (List.filter (fun ev => match ev with
                                 | Did (Image_close _) _ => true
                                 | _ => false
                                 end) evs).

(** What compress_images.py does only after something else: it opens a
    file right after finding it; converts what it opened; saves, under the
    new name, what it converted; removes the original only after the save
    succeeded and both sizes were read; closes what it opened; and it
    makes no directory, copies nothing and writes no manifest. *)
Definition compress_guard (directory : string) : guard :=
  fun pre ev =>
    match ev with
    | Did (Image_open p) _ => last pre = Some (Exists p true)
    | Did (Image_convert p mode) _ =>
        mode = "RGB" /\ last pre = Some (Did (Image_open p) None)
    | Did (Image_save p format quality optimize) _ =>
        exists filename,
          p = os_path_join directory (new_name filename)
          /\ (format, quality, optimize) = ("JPEG", 70, true)
          /\ last pre
             = Some (Did (Image_convert (os_path_join directory filename)
                            "RGB") None)
    | Did (os_remove p) _ =>
        exists filename a b,
          p = os_path_join directory filename
          /\ In (Did (Image_save (os_path_join directory (new_name filename))
                        "JPEG" 70 true) None) pre
          /\ In (GetSize p (Returns a)) pre
          /\ In (GetSize (os_path_join directory (new_name filename))
                   (Returns b)) pre
    | Did (Image_close p) _ => In (Did (Image_open p) None) pre
    | Did _ _ => False
    | _ => True
    end.

Definition imageset_dir (assets_dir image_file : string) : string :=
  os_path_join assets_dir (fst (splitext image_file) +:+ ".imageset").

(** What migrate_images.py does only after something else: it makes a
    directory right after finding that it does not exist; copies an image
    right after finding it; writes the manifest only after the copy
    succeeded; removes the original only after the copy and the manifest
    succeeded; and it opens no image. *)
Definition migrate_guard (source_dir assets_dir : string) : guard :=
  fun pre ev =>
    match ev with
    | Did (os_makedirs d) _ => last pre = Some (Exists d false)
    | Did (shutil_copy2 src dst) _ =>
        exists f,
          src = os_path_join source_dir f
          /\ dst = os_path_join (imageset_dir assets_dir f) f
          /\ last pre = Some (Exists src true)
    | Did (json_dump path contents) _ =>
        exists f,
          path = os_path_join (imageset_dir assets_dir f) "Contents.json"
          /\ contents = imageset_contents f
          /\ last pre
             = Some (Did (shutil_copy2 (os_path_join source_dir f)
                            (os_path_join (imageset_dir assets_dir f) f))
                       None)
    | Did (os_remove p) _ =>
        exists f,
          p = os_path_join source_dir f
          /\ In (Did (shutil_copy2 p
                        (os_path_join (imageset_dir assets_dir f) f)) None)
               pre
          /\ last pre
             = Some (Did (json_dump
                            (os_path_join (imageset_dir assets_dir f)
                               "Contents.json")
                            (imageset_contents f)) None)
    | Did _ _ => False
    | _ => True
    end.

(** What one image, or the whole list, leaves behind: nothing failed and
    both paths of every image were looked for, or exactly one call failed,
    it was the last one, and its error is the one raised. *)
Definition migrate_result (r : reply unit) (new : list event)
    (expected : list string) : Prop :=
  match r with
  | Returns _ => failures new = [] /\ exists_checked new = expected
  | Raises e =>
      failures new = [e] /\ exists c, last new = Some (Did c (Some e))
  end.

(** A guard still holds when more history is put in front. *)
Definition monotone (P : guard) : Prop :=
  forall old pre ev, P pre ev -> P (old ++ pre) ev.

End Guards.

Import Py Icons Spec Inputs.
Import Observers.

(** ** Basic facts about the runtime fragment *)
Section Runtime.

Lemma py_int_floor (f : float) :
  is_finite f = true -> is_negative f = false ->
  py_int f = Ok (Qfloor (float_value f)).
Proof.
  destruct f as [s | s | | s m e]; simpl; try discriminate; intros _ Hs.
  - reflexivity.
  - destruct s; [discriminate |].
    destruct e as [| k | k]; simpl; f_equal.
    + now rewrite Z.div_1_r.
    + now rewrite Z.div_1_r.
    + now rewrite Pos2Z.inj_pow.
Qed.

Lemma fmul_sign (a b : float) :
  non_negative a = true -> positive b = true -> is_negative (fmul a b) = false.
Proof.
  destruct a as [sa | sa | | sa ma ea], b as [sb | sb | | sb mb eb];
    simpl; try discriminate; destruct sa, sb; try discriminate; try reflexivity.
  intros _ _. unfold fmul, SFmul, binary_round_aux.
  destruct (shr_fexp _ _ _ _ _) as [mrs' e'].
  destruct (shr_fexp _ _ _ _ _) as [mrs'' e''].
  destruct (shr_m mrs''); simpl; try reflexivity.
  now destruct (_ <=? _).
Qed.

(** The floats used as inputs below are the ones [float] reads, and they
    are exact. *)
Lemma exact_inputs :
  py_float "83.5" = Ok pt_83_5 /\ (float_value pt_83_5 == 167 # 2)%Q
  /\ py_float "1" = Ok one /\ (float_value one == 1)%Q.
Proof. repeat split; vm_compute; reflexivity. Qed.

Lemma str_replace_delete (c : ascii) (s : string) :
  str_replace c EmptyString s = delete_all c s.
Proof.
  unfold delete_all. induction s as [| a s IH]; simpl; [reflexivity |].
  destruct (Ascii.eqb a c); simpl; now rewrite IH.
Qed.

End Runtime.

(** ** One iteration of the loop, case by case *)
Section Loop.
Variable w : world.

(** The body of the loop on an object: the guard, then the parse, then
    the destination, then the call. *)
Lemma loop_body_dict (d : gmap string pyval) (st : state) :
  loop_body w (PDict d) st =
  if renderable (PDict d) then
    match pixel_size (field d "size") (field d "scale") with
    | Ok (width_px, height_px) =>
        match field d "filename" with
        | PStr f =>
            resize_image w SOURCE_ICON (os_path_join DEST_DIR f)
              width_px height_px st
        | _ => (st, Raise TypeError)
        end
    | Raise e => (st, Raise e)
    end
  else (st, Ok tt).
Proof.
  unfold loop_body, renderable, bind, lift, py_get, field, ret.
  destruct (truthy _) eqn:Hf; simpl; [| reflexivity].
  destruct (truthy match d !! "size" with Some _ => _ | None => _ end);
    simpl; [| reflexivity].
  destruct (truthy match d !! "scale" with Some _ => _ | None => _ end);
    simpl; [| reflexivity].
  destruct (pixel_size _ _) as [[width_px height_px] | e]; [| reflexivity].
  destruct (match d !! "filename" with Some _ => _ | None => _ end);
    reflexivity.
Qed.

Lemma loop_body_not_dict (image : pyval) (st : state) :
  (forall d, image <> PDict d) -> loop_body w image st = (st, Raise AttributeError).
Proof.
  intros H. destruct image; try reflexivity. now destruct (H d).
Qed.

Lemma for_each_ok {A} (body : A -> M unit) x l st st' :
  body x st = (st', Ok tt) -> for_each body (x :: l) st = for_each body l st'.
Proof. intros H. simpl. unfold bind. now rewrite H. Qed.

Lemma for_each_raise {A} (body : A -> M unit) x l st st' e :
  body x st = (st', Raise e) -> for_each body (x :: l) st = (st', Raise e).
Proof. intros H. simpl. unfold bind. now rewrite H. Qed.

End Loop.

(** ** Pixel size (lines 48-55) *)
Section PixelSize.

(** C1, as stated, fails: at 83.5 points and scale 1 (the product is
    exact) the script asks for 83 pixels, where rounding to the nearest
    integer gives 84. *)
Lemma pixel_size_not_rounded :
  ~ (forall (size_str scale_str : string) (width_pt height_pt scale : float),
       parse_size (PStr size_str) = Ok (width_pt, height_pt) ->
       parse_scale (PStr scale_str) = Ok scale ->
       non_negative width_pt = true -> non_negative height_pt = true ->
       positive scale = true ->
       pixel_size (PStr size_str) (PStr scale_str)
       = Ok (rounded_pixel_size width_pt height_pt scale)).
Proof.
  intros H.
  specialize (H "83.5x83.5" "1x" pt_83_5 pt_83_5 one).
  assert (E : pixel_size (PStr "83.5x83.5") (PStr "1x") = Ok (83, 83))
    by (vm_compute; reflexivity).
  rewrite E in H.
  assert (R : rounded_pixel_size pt_83_5 pt_83_5 one = (84, 84))
    by (vm_compute; reflexivity).
  rewrite R in H.
  assert (C : @Ok (Z * Z) (83, 83) = Ok (84, 84))
    by (apply H; vm_compute; reflexivity).
  discriminate C.
Qed.

(** The truncation follows the rounding of the product: 0.29 * 100 is
    28.999999999999996 in binary64, and the script asks for 28 pixels. *)
Lemma truncation_follows_rounding :
  pixel_size (PStr "0.29x0.29") (PStr "100x") = Ok (28, 28).
Proof. vm_compute. reflexivity. Qed.

(** C1, amended: for every entry that is processed, with non-negative
    point sizes and a positive scale factor whose products are finite,
    the pixel size handed to the tool is the product truncated to an
    integer (its floor), in each dimension. *)
Theorem pixel_size_truncates (w : world) (d : gmap string pyval)
    (f : string) (width_pt height_pt scale : float) (st : state) :
  renderable (PDict d) = true ->
  field d "filename" = PStr f ->
  parse_size (field d "size") = Ok (width_pt, height_pt) ->
  parse_scale (field d "scale") = Ok scale ->
  non_negative width_pt = true -> non_negative height_pt = true ->
  positive scale = true ->
  is_finite (fmul width_pt scale) = true ->
  is_finite (fmul height_pt scale) = true ->
  let width_px := Qfloor (float_value (fmul width_pt scale)) in
  let height_px := Qfloor (float_value (fmul height_pt scale)) in
  pixel_size (field d "size") (field d "scale") = Ok (width_px, height_px)
  /\ loop_body w (PDict d) st
     = resize_image w SOURCE_ICON (os_path_join DEST_DIR f)
         width_px height_px st.
Proof.
  intros Hr Hf Hsize Hscale Hw Hh Hs Fw Fh width_px height_px.
  assert (E : pixel_size (field d "size") (field d "scale")
              = Ok (width_px, height_px)).
  { unfold pixel_size. rewrite Hsize, Hscale. simpl.
    rewrite (py_int_floor _ Fw (fmul_sign _ _ Hw Hs)).
    rewrite (py_int_floor _ Fh (fmul_sign _ _ Hh Hs)).
    reflexivity. }
  split; [exact E |].
  rewrite loop_body_dict, Hr, E, Hf. reflexivity.
Qed.

Lemma pixel_size_truncates_witness :
  pixel_size (PStr "83.5x83.5") (PStr "1x") = Ok (83, 83)
  /\ loop_body (world_of (Loaded PNone) (always (Exited 0)))
       (entry "d.png" "83.5x83.5" "1x") initial
     = resize_image (world_of (Loaded PNone) (always (Exited 0))) SOURCE_ICON
         (os_path_join DEST_DIR "d.png") 83 83 initial.
Proof.
  exact (pixel_size_truncates (world_of (Loaded PNone) (always (Exited 0)))
           (<["filename" := PStr "d.png"]>
              (<["size" := PStr "83.5x83.5"]> (<["scale" := PStr "1x"]> ∅)))
           "d.png" pt_83_5 pt_83_5 one initial
           eq_refl eq_refl eq_refl eq_refl eq_refl eq_refl eq_refl
           eq_refl eq_refl).
Defined.

(** C7: the pixel size is a function of the two strings alone, and on the
    three listed inputs it is 40x40, 87x87 and 167x167; whatever the
    environment and the state, the tool is called with these sizes. *)
Theorem listed_pixel_sizes :
  pixel_size (PStr "20x20") (PStr "2x") = Ok (40, 40)
  /\ pixel_size (PStr "29x29") (PStr "3x") = Ok (87, 87)
  /\ pixel_size (PStr "83.5x83.5") (PStr "2x") = Ok (167, 167)
  /\ (forall (w : world) (st : state),
        for_each (loop_body w) listed st
        = for_each (fun '(name, side) =>
                      resize_image w SOURCE_ICON (os_path_join DEST_DIR name)
                        side side)
            [("a.png", 40); ("b.png", 87); ("c.png", 167)] st)
  /\ map argv
       (calls (fst (main (world_of (Loaded (manifest listed))
                           (always (Exited 0))) initial)))
     = [sips_argv SOURCE_ICON (os_path_join DEST_DIR "a.png") 40 40;
        sips_argv SOURCE_ICON (os_path_join DEST_DIR "b.png") 87 87;
        sips_argv SOURCE_ICON (os_path_join DEST_DIR "c.png") 167 167].
Proof.
  split; [| split; [| split; [| split]]].
  1-3, 5: vm_compute; reflexivity.
  intros w st. unfold listed, entry, for_each, bind.
  rewrite !loop_body_dict. reflexivity.
Qed.

(** C10: the scale is read with every 'x' deleted, wherever it stands, so
    that x2, 2 and 2x all read as 2.0. *)
Theorem scale_drops_every_x :
  (forall s : string, parse_scale (PStr s) = py_float (delete_all "x" s))
  /\ parse_scale (PStr "x2") = Ok (float_of_Z 2)
  /\ parse_scale (PStr "2") = Ok (float_of_Z 2)
  /\ parse_scale (PStr "2x") = Ok (float_of_Z 2)
  /\ pixel_size (PStr "20x20") (PStr "x2") = Ok (40, 40).
Proof.
  split; [| repeat split; vm_compute; reflexivity].
  intros s. unfold parse_scale. now rewrite str_replace_delete.
Qed.

End PixelSize.

(** ** Entries that are skipped *)
Section Skipped.

(** C9: an entry whose filename is the empty string is treated as one
    that has no filename: the iteration ends at the guard, with no call
    to the tool, no line printed and no error, whatever its other
    fields. *)
Theorem empty_filename_is_absent_filename (w : world)
    (d : gmap string pyval) (st : state) :
  loop_body w (PDict (<["filename" := PStr EmptyString]> d)) st = (st, Ok tt)
  /\ loop_body w (PDict (delete "filename" d)) st = (st, Ok tt).
Proof.
  split; rewrite loop_body_dict; unfold renderable, field.
  - now rewrite lookup_insert_eq.
  - now rewrite lookup_delete_eq.
Qed.

End Skipped.

(** ** The checks before the loop *)
Section Preconditions.

(** C5: when the source image does not exist the run ends at the first
    check: one line names the missing image, the manifest is not read,
    the tool is never called and no file is written. *)
Theorem missing_source_fails_fast (w : world) :
  path_exists w SOURCE_ICON = false ->
  main w initial
  = ({| stdout := ["Error: Source icon '../icon.png' not found in current directory."];
        calls := [] |}, Ok tt)
  /\ output_files (fst (main w initial)) = [].
Proof.
  intros H. unfold main. rewrite H. simpl. split; reflexivity.
Qed.

Lemma missing_source_fails_fast_witness :
  let w := {| path_exists := fun p => negb (String.eqb p SOURCE_ICON);
              json_load := fun _ => Loaded (manifest listed);
              subprocess_run := always (Exited 0);
              signal_repr := fun _ => None |} in
  main w initial
  = ({| stdout := ["Error: Source icon '../icon.png' not found in current directory."];
        calls := [] |}, Ok tt)
  /\ output_files (fst (main w initial)) = [].
Proof.
  intros w. apply (missing_source_fails_fast w). reflexivity.
Defined.

(** C2, as stated, fails: a manifest that lacks the key "images" is not
    an error; the run completes, having attempted nothing. *)
Lemma missing_key_is_empty_manifest :
  let w := world_of (Loaded (PDict ∅)) (always (Exited 0)) in
  (exists d : gmap string pyval,
      json_load w CONTENTS_JSON_PATH = Loaded (PDict d)
      /\ d !! "images" = None)
  /\ completed (main w initial) = true
  /\ main w initial
     = ({| stdout := ["Processing icons from ../icon.png...";
                      "Icon generation complete!"];
           calls := [] |}, Ok tt).
Proof.
  intros w. split; [| split; vm_compute; reflexivity].
  exists ∅. split; reflexivity.
Qed.

(** C2, amended: with the source image present, a manifest path that
    does not exist ends the run with one line naming it; content that
    does not load ends it with the exception of the loader, and a top
    level that is not an object with AttributeError; a manifest without
    the key "images" is read as an empty collection and the run
    completes.  In each case the tool is never called. *)
Theorem manifest_reader_outcomes (w : world) :
  path_exists w SOURCE_ICON = true ->
  (path_exists w CONTENTS_JSON_PATH = false ->
   main w initial
   = ({| stdout := ["Error: Contents.json not found at '../PDFScanner/Assets.xcassets/AppIcon.appiconset/Contents.json'"];
         calls := [] |}, Ok tt))
  /\ (path_exists w CONTENTS_JSON_PATH = true ->
      forall e, json_load w CONTENTS_JSON_PATH = LoadRaises e ->
      main w initial = (initial, Raise e))
  /\ (path_exists w CONTENTS_JSON_PATH = true ->
      forall v, json_load w CONTENTS_JSON_PATH = Loaded v ->
      (forall d, v <> PDict d) ->
      main w initial
      = ({| stdout := ["Processing icons from ../icon.png..."];
            calls := [] |}, Raise AttributeError))
  /\ (path_exists w CONTENTS_JSON_PATH = true ->
      forall d, json_load w CONTENTS_JSON_PATH = Loaded (PDict d) ->
      d !! "images" = None ->
      main w initial
      = ({| stdout := ["Processing icons from ../icon.png...";
                       "Icon generation complete!"];
            calls := [] |}, Ok tt)).
Proof.
  intros Hs. unfold main. rewrite Hs. simpl negb. cbv iota.
  split; [| split; [| split]].
  - intros Hm. rewrite Hm. reflexivity.
  - intros Hm e He. rewrite Hm, He. reflexivity.
  - intros Hm v Hv Hd. rewrite Hm, Hv.
    destruct v; try reflexivity. now destruct (Hd d).
  - intros Hm d Hd Hk. rewrite Hm, Hd. unfold bind, lift, print, py_get.
    simpl. now rewrite Hk.
Qed.

Lemma manifest_reader_outcomes_witness :
  let absent := {| path_exists := fun p => String.eqb p SOURCE_ICON;
                   json_load := fun _ => LoadRaises (OSError "FileNotFoundError");
                   subprocess_run := always (Exited 0);
                   signal_repr := fun _ => None |} in
  let broken := world_of (LoadRaises JSONDecodeError) (always (Exited 0)) in
  let array := world_of (Loaded (PList listed)) (always (Exited 0)) in
  let keyless := world_of (Loaded (PDict ∅)) (always (Exited 0)) in
  main absent initial
  = ({| stdout := ["Error: Contents.json not found at '../PDFScanner/Assets.xcassets/AppIcon.appiconset/Contents.json'"];
        calls := [] |}, Ok tt)
  /\ main broken initial = (initial, Raise JSONDecodeError)
  /\ main array initial
     = ({| stdout := ["Processing icons from ../icon.png..."];
           calls := [] |}, Raise AttributeError)
  /\ main keyless initial
     = ({| stdout := ["Processing icons from ../icon.png...";
                      "Icon generation complete!"];
           calls := [] |}, Ok tt).
Proof.
  intros absent broken array keyless.
  split; [| split; [| split]].
  - apply (manifest_reader_outcomes absent); reflexivity.
  - apply (manifest_reader_outcomes broken); reflexivity.
  - apply (manifest_reader_outcomes array eq_refl) with (v := PList listed);
      [reflexivity | reflexivity | discriminate].
  - apply (manifest_reader_outcomes keyless eq_refl) with (d := ∅);
      reflexivity.
Defined.

End Preconditions.

(** ** Entries that do not parse, and calls that fail *)
Section Failures.

(** C3, as stated, fails: a size that is present but not of the form WxH,
    or a scale that is not a number, raises ValueError out of the loop;
    the entries after it are not attempted and the completion notice is
    not printed. *)
Lemma malformed_entry_aborts_run :
  main (world_of (Loaded (manifest [entry "a.png" "20" "2x";
                                    entry "b.png" "29x29" "3x"]))
          (always (Exited 0))) initial
  = ({| stdout := ["Processing icons from ../icon.png..."]; calls := [] |},
     Raise ValueError)
  /\ main (world_of (Loaded (manifest [entry "a.png" "20x20" "two";
                                       entry "b.png" "29x29" "3x"]))
             (always (Exited 0))) initial
     = ({| stdout := ["Processing icons from ../icon.png..."]; calls := [] |},
        Raise ValueError).
Proof. split; vm_compute; reflexivity. Qed.

(** C3, amended: an entry one of whose three fields is absent or empty is
    skipped and the loop goes on with the next entry from the same state;
    an entry that passes the guard and whose size or scale does not parse
    ends the loop with the error of the parse. *)
Theorem incomplete_entry_skipped (w : world) (d : gmap string pyval)
    (rest : list pyval) (st : state) :
  (renderable (PDict d) = false ->
   for_each (loop_body w) (PDict d :: rest) st
   = for_each (loop_body w) rest st)
  /\ (renderable (PDict d) = true ->
      forall e, pixel_size (field d "size") (field d "scale") = Raise e ->
      for_each (loop_body w) (PDict d :: rest) st = (st, Raise e)).
Proof.
  split.
  - intros H. apply for_each_ok. now rewrite loop_body_dict, H.
  - intros H e He. apply for_each_raise. now rewrite loop_body_dict, H, He.
Qed.

Lemma incomplete_entry_skipped_witness :
  let w := world_of (Loaded PNone) (always (Exited 0)) in
  for_each (loop_body w) [imageset_entry; entry "b.png" "29x29" "3x"] initial
  = for_each (loop_body w) [entry "b.png" "29x29" "3x"] initial
  /\ for_each (loop_body w)
       [entry "a.png" "20" "2x"; entry "b.png" "29x29" "3x"] initial
     = (initial, Raise ValueError).
Proof.
  intros w. split.
  - apply (incomplete_entry_skipped w). reflexivity.
  - apply (incomplete_entry_skipped w); reflexivity.
Defined.

(** C4, as stated, fails: when the tool cannot be started the exception
    leaves [resize_image]; no failure line is printed for the entry and
    the entries after it are not attempted. *)
Lemma launch_error_aborts_batch :
  main (world_of (Loaded (manifest listed))
          (always (RunRaises (OSError "FileNotFoundError")))) initial
  = ({| stdout := ["Processing icons from ../icon.png..."];
        calls := [{| argv := sips_argv SOURCE_ICON
                               (os_path_join DEST_DIR "a.png") 40 40;
                     outcome := RunRaises (OSError "FileNotFoundError") |}] |},
     Raise (OSError "FileNotFoundError")).
Proof. vm_compute. reflexivity. Qed.

(** C4, amended: when the tool runs and exits with a non-zero status for
    an entry, the call is recorded, one line naming the destination and
    the status is printed, and the loop goes on with the next entry. *)
Theorem nonzero_exit_is_isolated (w : world) (d : gmap string pyval)
    (f : string) (width_px height_px rc : Z) (rest : list pyval) (st : state) :
  renderable (PDict d) = true ->
  field d "filename" = PStr f ->
  pixel_size (field d "size") (field d "scale") = Ok (width_px, height_px) ->
  let dest_path := os_path_join DEST_DIR f in
  let cmd := sips_argv SOURCE_ICON dest_path width_px height_px in
  subprocess_run w (length (calls st)) cmd = Exited rc ->
  rc <> 0 ->
  for_each (loop_body w) (PDict d :: rest) st
  = for_each (loop_body w) rest
      {| stdout := stdout st ++ [error_line w dest_path rc cmd];
         calls := calls st ++ [{| argv := cmd; outcome := Exited rc |}] |}.
Proof.
  intros Hr Hf Hp dest_path cmd Hrun Hrc.
  apply for_each_ok. rewrite loop_body_dict, Hr, Hp, Hf.
  unfold resize_image. fold dest_path. fold cmd. rewrite Hrun.
  destruct rc; [now destruct Hrc | reflexivity | reflexivity].
Qed.

Lemma nonzero_exit_is_isolated_witness :
  let w := world_of (Loaded PNone)
             (fun n _ => if Nat.eqb n 0 then Exited 1 else Exited 0) in
  let dest_path := os_path_join DEST_DIR "a.png" in
  let cmd := sips_argv SOURCE_ICON dest_path 40 40 in
  for_each (loop_body w) listed initial
  = for_each (loop_body w) (tl listed)
      {| stdout := [error_line w dest_path 1 cmd];
         calls := [{| argv := cmd; outcome := Exited 1 |}] |}.
Proof.
  intros w dest_path cmd.
  apply (nonzero_exit_is_isolated w
           (<["filename" := PStr "a.png"]>
              (<["size" := PStr "20x20"]> (<["scale" := PStr "2x"]> ∅)))
           "a.png" 40 40 1 (tl listed) initial);
    [reflexivity | reflexivity | reflexivity | reflexivity | discriminate].
Defined.

End Failures.

(** ** The log and the calls of a whole run *)
Section Report.
Variable w : world.

Lemma report_line_sips (source dest : string) (width height : Z)
    (o : run_outcome) :
  report_line w {| argv := sips_argv source dest width height; outcome := o |}
  = match o with
    | Exited 0 => Some (generated_line dest width height)
    | Exited rc =>
        Some (error_line w dest rc (sips_argv source dest width height))
    | RunRaises _ => None
    end.
Proof. destruct o as [[| rc | rc] | e]; reflexivity. Qed.

(** [resize_image] makes one call, prints its report line if it has one,
    and raises exactly when the tool could not be started. *)
Lemma resize_image_eq (source dest : string) (width height : Z) (st : state) :
  let cmd := sips_argv source dest width height in
  let c := {| argv := cmd;
              outcome := subprocess_run w (length (calls st)) cmd |} in
  resize_image w source dest width height st
  = ({| stdout := stdout st ++ option_list (report_line w c);
        calls := calls st ++ [c] |},
     match outcome c with
     | RunRaises e => Raise e
     | Exited _ => Ok tt
     end).
Proof.
  intros cmd c. unfold resize_image, c, cmd.
  rewrite report_line_sips.
  destruct (subprocess_run _ _ _) as [[| rc | rc] | e];
    unfold print, raise; cbn [stdout calls option_list outcome];
    rewrite ?app_nil_r; reflexivity.
Qed.

Lemma resize_image_logged prefix source dest width height st :
  logged w prefix st ->
  logged w prefix (fst (resize_image w source dest width height st)).
Proof.
  unfold logged. intros H. rewrite resize_image_eq.
  cbn [fst stdout calls]. rewrite omap_app, H, <- app_assoc.
  reflexivity.
Qed.

Lemma loop_body_logged prefix image st :
  logged w prefix st -> logged w prefix (fst (loop_body w image st)).
Proof.
  intros H. destruct image; try exact H.
  rewrite loop_body_dict.
  destruct (renderable _); [| exact H].
  destruct (pixel_size _ _) as [[width_px height_px] | e]; [| exact H].
  destruct (field d "filename"); try exact H.
  now apply resize_image_logged.
Qed.

Lemma for_each_logged prefix images :
  forall st, logged w prefix st ->
             logged w prefix (fst (for_each (loop_body w) images st)).
Proof.
  induction images as [| image images IH]; intros st H; [exact H |].
  simpl. unfold bind.
  pose proof (loop_body_logged prefix image st H) as H1.
  destruct (loop_body w image st) as [st1 [[] | e]]; simpl in *.
  - now apply IH.
  - exact H1.
Qed.








Lemma resize_image_reported dest width height st st' :
  resize_image w SOURCE_ICON dest width height st = (st', Ok tt) ->
  Forall (reported w) (calls st) -> Forall (reported w) (calls st').
Proof.
  rewrite resize_image_eq. cbn [outcome]. rewrite report_line_sips.
  destruct (subprocess_run _ _ _) as [rc | e] eqn:E; [| discriminate].
  intros [= <-] H. cbn [calls]. apply Forall_app. split; [exact H |].
  apply Forall_cons. split; [| apply Forall_nil; exact I].
  exists dest, width, height, rc. split; [reflexivity |].
  rewrite report_line_sips. now destruct rc.
Qed.

Lemma loop_body_reported image st st' :
  loop_body w image st = (st', Ok tt) ->
  Forall (reported w) (calls st) -> Forall (reported w) (calls st').
Proof.
  destruct image as [| | | | | | d]; try discriminate.
  rewrite loop_body_dict.
  destruct (renderable _); [| now intros [= <-]].
  destruct (pixel_size _ _) as [[width_px height_px] | e]; [| discriminate].
  destruct (field d "filename"); try discriminate.
  apply resize_image_reported.
Qed.

Lemma for_each_reported images :
  forall st st',
    for_each (loop_body w) images st = (st', Ok tt) ->
    Forall (reported w) (calls st) -> Forall (reported w) (calls st').
Proof.
  induction images as [| image images IH]; intros st st'.
  - now intros [= <-].
  - simpl. unfold bind.
    destruct (loop_body w image st) as [st1 [[] | e]] eqn:E; [| discriminate].
    intros H F. apply (IH st1 st' H).
    exact (loop_body_reported image st st1 E F).
Qed.


(** [main] past the two checks. *)
Lemma main_past_checks :
  path_exists w SOURCE_ICON = true ->
  path_exists w CONTENTS_JSON_PATH = true ->
  main w initial
  = match json_load w CONTENTS_JSON_PATH with
    | LoadRaises e => (initial, Raise e)
    | Loaded contents =>
        let st0 := {| stdout := ["Processing icons from ../icon.png..."];
                      calls := [] |} in
        match py_get contents "images" (PList []) with
        | Raise e => (st0, Raise e)
        | Ok images =>
            match py_iter images with
            | Raise e => (st0, Raise e)
            | Ok items =>
                match for_each (loop_body w) items st0 with
                | (st1, Ok _) =>
                    ({| stdout := stdout st1 ++ ["Icon generation complete!"];
                        calls := calls st1 |}, Ok tt)
                | (st1, Raise e) => (st1, Raise e)
                end
            end
        end
    end.
Proof.
  intros Hs Hm. unfold main. rewrite Hs, Hm. simpl negb. cbv iota.
  unfold bind, lift, print.
  destruct (json_load w CONTENTS_JSON_PATH) as [contents | e];
    [| reflexivity].
  cbn [stdout calls initial app].
  destruct (py_get contents "images" (PList [])) as [images | e];
    [| reflexivity].
  destruct (py_iter images) as [items | e]; [| reflexivity].
  reflexivity.
Qed.

(** A run that gets past the two checks and returns: its log is the
    opening line, the report lines of its calls, and the completion
    notice; each call ran to an exit status and has its line. *)
Lemma main_completed_log (st : state) :
  path_exists w SOURCE_ICON = true ->
  path_exists w CONTENTS_JSON_PATH = true ->
  main w initial = (st, Ok tt) ->
  stdout st
  = ["Processing icons from ../icon.png..."]
      ++ omap (report_line w) (calls st) ++ ["Icon generation complete!"]
  /\ Forall (reported w) (calls st).
Proof.
  intros Hs Hm. rewrite (main_past_checks Hs Hm).
  destruct (json_load w CONTENTS_JSON_PATH) as [contents | e];
    [| discriminate].
  cbv zeta.
  destruct (py_get contents "images" (PList [])) as [images | e];
    [| discriminate].
  destruct (py_iter images) as [items | e]; [| discriminate].
  set (st0 := {| stdout := ["Processing icons from ../icon.png..."];
                 calls := [] |}).
  assert (L0 : logged w ["Processing icons from ../icon.png..."] st0)
    by reflexivity.
  pose proof (for_each_logged ["Processing icons from ../icon.png..."]
                items st0 L0) as L.
  pose proof (for_each_reported items st0) as F.
  destruct (for_each (loop_body w) items st0) as [st1 [[] | e]];
    [| discriminate].
  intros [= <-]. cbn [stdout calls fst] in *.
  split.
  - unfold logged in L. rewrite L. now rewrite <- app_assoc.
  - apply (F st1 eq_refl). apply Forall_nil. exact I.
Qed.

End Report.

(** ** The calls and the log of a run *)
Section Batch.




(** C8, as stated, fails: the last line of the log is the same whether
    every item was generated or every item failed; it carries no
    count. *)
Lemma completion_notice_has_no_counts :
  let ok := world_of (Loaded (manifest listed)) (always (Exited 0)) in
  let ko := world_of (Loaded (manifest listed)) (always (Exited 1)) in
  counts (fst (main ok initial)) = (3, 0)%nat
  /\ counts (fst (main ko initial)) = (0, 3)%nat
  /\ List.last (stdout (fst (main ok initial))) EmptyString
     = "Icon generation complete!"
  /\ List.last (stdout (fst (main ko initial))) EmptyString
     = "Icon generation complete!".
Proof. intros ok ko. repeat split; vm_compute; reflexivity. Qed.

(** C8, amended: a run that gets past the two checks and returns prints
    the opening line, then one line for each call of the tool, in order,
    then the fixed notice "Icon generation complete!"; the line of a call
    that exited with status 0 names the destination and the size, the
    line of a call that exited with another status names the destination
    and the cause. *)
Theorem log_of_completed_run (w : world) (st : state) :
  path_exists w SOURCE_ICON = true ->
  path_exists w CONTENTS_JSON_PATH = true ->
  main w initial = (st, Ok tt) ->
  stdout st
  = ["Processing icons from ../icon.png..."]
      ++ omap (report_line w) (calls st) ++ ["Icon generation complete!"]
  /\ Forall (reported w) (calls st)
  /\ List.last (stdout st) EmptyString = "Icon generation complete!".
Proof.
  intros Hs Hm R.
  destruct (main_completed_log w st Hs Hm R) as [L F].
  split; [exact L | split; [exact F |]].
  rewrite L, app_assoc. apply last_last.
Qed.

Lemma log_of_completed_run_witness :
  let w := world_of (Loaded (manifest listed))
             (fun n _ => if Nat.eqb n 1 then Exited 1 else Exited 0) in
  let st := fst (main w initial) in
  stdout st
  = ["Processing icons from ../icon.png..."]
      ++ omap (report_line w) (calls st) ++ ["Icon generation complete!"]
  /\ Forall (reported w) (calls st)
  /\ List.last (stdout st) EmptyString = "Icon generation complete!".
Proof.
  intros w st.
  apply (log_of_completed_run w st); vm_compute; reflexivity.
Defined.

End Batch.

(** ** Reading the size of an entry (line 48) *)
Section SizeString.

Lemma str_split_nonempty (sep : ascii) (s : string) : str_split sep s <> [].
Proof.
  destruct s as [| c s]; simpl; [discriminate |].
  destruct (Ascii.eqb c sep); [discriminate |].
  destruct (str_split sep s); discriminate.
Qed.

Lemma str_split_one (sep : ascii) (s b : string) :
  str_split sep s = [b] -> s = b /\ has_char sep b = false.
Proof.
  revert b. induction s as [| c s IH]; intros b; simpl.
  - intros [= <-]. split; reflexivity.
  - pose proof (str_split_nonempty sep s) as N.
    destruct (Ascii.eqb c sep) eqn:E.
    + intros [= _ S]. now destruct N.
    + destruct (str_split sep s) as [| p ps] eqn:S; [now destruct N |].
      intros [= <- ->]. destruct (IH p eq_refl) as [-> Hp].
      split; [reflexivity |].
      unfold has_char in *. simpl. rewrite Hp.
      now rewrite Ascii.eqb_sym, E.
Qed.

Lemma str_split_two (sep : ascii) (s a b : string) :
  str_split sep s = [a; b] ->
  s = a +:+ String sep b /\ has_char sep a = false /\ has_char sep b = false.
Proof.
  revert a. induction s as [| c s IH]; intros a; simpl; [discriminate |].
  destruct (Ascii.eqb c sep) eqn:E.
  - intros [= <- S]. apply Ascii.eqb_eq in E. subst c.
    destruct (str_split_one sep s b S) as [-> Hb].
    split; [reflexivity | split; [reflexivity | exact Hb]].
  - destruct (str_split sep s) as [| p ps] eqn:S; [discriminate |].
    intros [= <- ->].
    destruct (IH p eq_refl) as (-> & Hp & Hb).
    split; [reflexivity | split; [| exact Hb]].
    unfold has_char in *. simpl. rewrite Hp.
    now rewrite Ascii.eqb_sym, E.
Qed.

Lemma str_split_whole (sep : ascii) (b : string) :
  has_char sep b = false -> str_split sep b = [b].
Proof.
  unfold has_char. induction b as [| c b IH]; simpl; [reflexivity |].
  intros H. apply orb_false_iff in H. destruct H as [E H].
  rewrite Ascii.eqb_sym, E, (IH H). reflexivity.
Qed.

Lemma str_split_at (sep : ascii) (a b : string) :
  has_char sep a = false ->
  str_split sep (a +:+ String sep b) = a :: str_split sep b.
Proof.
  unfold has_char. induction a as [| c a IH]; simpl.
  - intros _. now rewrite Ascii.eqb_refl.
  - intros H. apply orb_false_iff in H. destruct H as [E H].
    rewrite Ascii.eqb_sym, E, (IH H). reflexivity.
Qed.

(** X1: a size is read exactly when the string has one lowercase x, with
    a number [float] accepts on each side of it. *)
Theorem size_has_exactly_one_x (s : string) (width_pt height_pt : float) :
  parse_size (PStr s) = Ok (width_pt, height_pt)
  <-> exists a b : string,
        s = a +:+ "x" +:+ b
        /\ has_char "x" a = false /\ has_char "x" b = false
        /\ py_float a = Ok width_pt /\ py_float b = Ok height_pt.
Proof.
  unfold parse_size, rbind. split.
  - destruct (str_split "x" s) as [| a [| b [| c ps]]] eqn:S.
    + discriminate.
    + now destruct (py_float a).
    + destruct (py_float a) as [x |] eqn:A; [| discriminate].
      destruct (py_float b) as [y |] eqn:B; [| discriminate].
      intros [= <- <-]. exists a, b.
      destruct (str_split_two _ _ _ _ S) as (E & Ha & Hb).
      repeat split; assumption.
    + destruct (py_float a); [| discriminate].
      destruct (py_float b); [| discriminate].
      now destruct (py_float c).
  - intros (a & b & -> & Ha & Hb & A & B).
    change (a +:+ "x" +:+ b) with (a +:+ String "x" b).
    rewrite (str_split_at _ _ _ Ha), (str_split_whole _ _ Hb), A, B.
    reflexivity.
Qed.

End SizeString.

(** ** Sizes of either sign, and sizes that are not finite *)
Section Truncation.

Ltac by_sign_of x :=
  destruct (Z.leb_spec 0 x);
  rewrite ?Z.opp_involutive, ?Z.div_1_r; try reflexivity; lia.

Lemma py_int_truncate (f : float) :
  is_finite f = true -> py_int f = Ok (truncate (float_value f)).
Proof.
  destruct f as [s | s | | s m e]; simpl; try discriminate; intros _.
  - reflexivity.
  - unfold truncate.
    destruct e as [| k | k]; destruct s; cbn [float_value]; f_equal;
      unfold Qle_bool, Qceiling, Qfloor, Qopp; cbn [Qnum Qden];
      rewrite ?Z.mul_1_r, ?Pos2Z.inj_pow; change (0 * _) with 0.
    + by_sign_of (- Z.pos m).
    + by_sign_of (Z.pos m).
    + assert (Hq : 0 < Z.pos m * 2 ^ Z.pos k)
        by (apply Z.mul_pos_pos; [| apply Z.pow_pos_nonneg]; lia).
      set (q := Z.pos m * 2 ^ Z.pos k) in *. by_sign_of (- q).
    + assert (Hq : 0 < Z.pos m * 2 ^ Z.pos k)
        by (apply Z.mul_pos_pos; [| apply Z.pow_pos_nonneg]; lia).
      set (q := Z.pos m * 2 ^ Z.pos k) in *. by_sign_of q.
    + by_sign_of (- Z.pos m).
    + by_sign_of (Z.pos m).
Qed.

Lemma py_int_not_finite (f : float) :
  is_finite f = false ->
  py_int f = Raise OverflowError \/ py_int f = Raise ValueError.
Proof. destruct f; simpl; try discriminate; auto. Qed.

(** X2: the pixel size of an entry whose fields parse is the product
    truncated toward zero in each dimension, whatever its sign (a
    negative size is not rejected); when a product is infinite or NaN the
    entry raises OverflowError or ValueError instead. *)
Theorem pixel_size_truncates_toward_zero (size_str scale_str : pyval)
    (width_pt height_pt scale : float) :
  parse_size size_str = Ok (width_pt, height_pt) ->
  parse_scale scale_str = Ok scale ->
  (is_finite (fmul width_pt scale) && is_finite (fmul height_pt scale) = true ->
   pixel_size size_str scale_str
   = Ok (truncate (float_value (fmul width_pt scale)),
         truncate (float_value (fmul height_pt scale))))
  /\ (is_finite (fmul width_pt scale) && is_finite (fmul height_pt scale)
      = false ->
      pixel_size size_str scale_str = Raise OverflowError
      \/ pixel_size size_str scale_str = Raise ValueError).
Proof.
  intros Hsize Hscale. unfold pixel_size. rewrite Hsize, Hscale. simpl.
  split.
  - intros H. apply andb_true_iff in H. destruct H as [Fw Fh].
    now rewrite (py_int_truncate _ Fw), (py_int_truncate _ Fh).
  - intros H. apply andb_false_iff in H.
    destruct (is_finite (fmul width_pt scale)) eqn:Fw.
    + rewrite (py_int_truncate _ Fw). simpl.
      destruct H as [H | H]; [discriminate |].
      destruct (py_int_not_finite _ H) as [-> | ->]; auto.
    + destruct (py_int_not_finite _ Fw) as [-> | ->]; auto.
Qed.

Lemma pixel_size_truncates_toward_zero_witness :
  pixel_size (PStr "-1.5x2.5") (PStr "1x") = Ok (-1, 2)
  /\ (pixel_size (PStr "1e308x1") (PStr "10x") = Raise OverflowError
      \/ pixel_size (PStr "1e308x1") (PStr "10x") = Raise ValueError).
Proof.
  split.
  - apply (pixel_size_truncates_toward_zero (PStr "-1.5x2.5") (PStr "1x")
             (the_float "-1.5") (the_float "2.5") (the_float "1"));
      vm_compute; reflexivity.
  - apply (pixel_size_truncates_toward_zero (PStr "1e308x1") (PStr "10x")
             (the_float "1e308") (the_float "1") (the_float "10"));
      vm_compute; reflexivity.
Defined.

End Truncation.

(** ** What an entry can raise *)
Section EntryErrors.
Variable w : world.

Lemma py_float_raises (s : string) (e : exn) :
  py_float s = Raise e -> e = ValueError.
Proof.
  unfold py_float. destruct (strip_underscores _ _); [| now intros [= <-]].
  destruct (parse_decimal _); [discriminate |].
  destruct (parse_inf_or_nan _); [discriminate | now intros [= <-]].
Qed.

Lemma py_int_raises (f : float) (e : exn) :
  py_int f = Raise e -> e = OverflowError \/ e = ValueError.
Proof. destruct f; simpl; try discriminate; intros [= <-]; auto. Qed.

Lemma parse_size_raises (size_str : pyval) (e : exn) :
  parse_size size_str = Raise e -> e = AttributeError \/ e = ValueError.
Proof.
  unfold parse_size.
  destruct size_str as [| | | | s | |]; simpl; try (intros [= <-]; auto).
  destruct (str_split "x" s) as [| a [| b [| c ps]]]; simpl;
    try (intros [= <-]; now auto).
  - destruct (py_float a) eqn:A; simpl; intros [= <-]; auto.
    right. exact (py_float_raises _ _ A).
  - destruct (py_float a) eqn:A; simpl;
      [| intros [= <-]; right; exact (py_float_raises _ _ A)].
    destruct (py_float b) eqn:B; simpl; [discriminate |].
    intros [= <-]. right. exact (py_float_raises _ _ B).
  - destruct (py_float a) eqn:A; simpl;
      [| intros [= <-]; right; exact (py_float_raises _ _ A)].
    destruct (py_float b) eqn:B; simpl;
      [| intros [= <-]; right; exact (py_float_raises _ _ B)].
    destruct (py_float c) eqn:C; simpl; intros [= <-]; auto.
    right. exact (py_float_raises _ _ C).
Qed.

Lemma parse_scale_raises (scale_str : pyval) (e : exn) :
  parse_scale scale_str = Raise e -> e = AttributeError \/ e = ValueError.
Proof.
  destruct scale_str; simpl; try (intros [= <-]; now auto).
  intros H. right. exact (py_float_raises _ _ H).
Qed.

Lemma pixel_size_raises (size_str scale_str : pyval) (e : exn) :
  pixel_size size_str scale_str = Raise e -> entry_error e = true.
Proof.
  unfold pixel_size.
  destruct (parse_size size_str) as [[width_pt height_pt] |] eqn:S; simpl.
  2: { intros [= <-]. now destruct (parse_size_raises _ _ S) as [-> | ->]. }
  destruct (parse_scale scale_str) as [scale |] eqn:C; simpl.
  2: { intros [= <-]. now destruct (parse_scale_raises _ _ C) as [-> | ->]. }
  destruct (py_int (fmul width_pt scale)) eqn:W; simpl.
  2: { intros [= <-]. now destruct (py_int_raises _ _ W) as [-> | ->]. }
  destruct (py_int (fmul height_pt scale)) eqn:H; simpl; [discriminate |].
  intros [= <-]. now destruct (py_int_raises _ _ H) as [-> | ->].
Qed.

(** X3: an entry that raises either raises before the tool is called,
    then the state is untouched and the exception is AttributeError,
    ValueError, OverflowError or TypeError; or the tool was called with
    the command of the entry and could not be started, then the call is
    recorded and the exception is the one of the launch. *)
Theorem entry_failure_modes (d : gmap string pyval) (st st' : state)
    (e : exn) :
  loop_body w (PDict d) st = (st', Raise e) ->
  (st' = st /\ entry_error e = true)
  \/ (exists cmd,
         entry_argv (PDict d) = Some cmd
         /\ subprocess_run w (length (calls st)) cmd = RunRaises e
         /\ st' = {| stdout := stdout st;
                     calls := calls st
                              ++ [{| argv := cmd; outcome := RunRaises e |}] |}).
Proof.
  rewrite loop_body_dict. unfold entry_argv.
  destruct (renderable (PDict d)); [| discriminate].
  destruct (pixel_size _ _) as [[width_px height_px] |] eqn:P.
  2: { intros [= <- <-]. left. split; [reflexivity |].
       exact (pixel_size_raises _ _ _ P). }
  destruct (field d "filename") as [| | | | f | |];
    try (intros [= <- <-]; left; split; reflexivity).
  rewrite resize_image_eq. cbn [outcome]. rewrite report_line_sips.
  destruct (subprocess_run _ _ _) as [rc | e'] eqn:R; [discriminate |].
  intros [= <- <-]. right. eexists. split; [reflexivity |].
  split; [exact R |]. cbn [option_list]. now rewrite app_nil_r.
Qed.

End EntryErrors.

Lemma entry_failure_modes_witness :
  let w := world_of (Loaded PNone) (always (Exited 0)) in
  (initial = initial /\ entry_error ValueError = true)
  \/ (exists cmd,
         entry_argv (entry "a.png" "20" "2x") = Some cmd
         /\ subprocess_run w (length (calls initial)) cmd
            = RunRaises ValueError
         /\ initial
            = {| stdout := stdout initial;
                 calls := calls initial
                          ++ [{| argv := cmd;
                                 outcome := RunRaises ValueError |}] |}).
Proof.
  intros w.
  apply (entry_failure_modes w
           (<["filename" := PStr "a.png"]>
              (<["size" := PStr "20"]> (<["scale" := PStr "2x"]> ∅)))
           initial initial ValueError).
  vm_compute. reflexivity.
Defined.

(** ** The calls of any run, returned or aborted *)
Section AnyRun.
Variable w : world.

(** One iteration adds the command of its entry, if it has one, and
    nothing else, whether it returns or raises. *)
Lemma loop_body_calls (image : pyval) (st : state) :
  map argv (calls (fst (loop_body w image st)))
  = map argv (calls st) ++ option_list (entry_argv image).
Proof.
  destruct image as [| | | | | | d];
    try (simpl; now rewrite app_nil_r).
  rewrite loop_body_dict. unfold entry_argv.
  destruct (renderable (PDict d)); [| simpl; now rewrite app_nil_r].
  destruct (pixel_size _ _) as [[width_px height_px] | e];
    [| destruct (field d "filename"); simpl; now rewrite app_nil_r].
  destruct (field d "filename"); try (simpl; now rewrite app_nil_r).
  rewrite resize_image_eq. cbn [fst calls option_list].
  now rewrite map_app.
Qed.

Lemma for_each_calls (images : list pyval) :
  forall st,
  exists n : nat,
    (n <= length images)%nat
    /\ map argv (calls (fst (for_each (loop_body w) images st)))
       = map argv (calls st) ++ omap entry_argv (take n images)
    /\ (snd (for_each (loop_body w) images st) = Ok tt -> n = length images).
Proof.
  induction images as [| image images IH]; intros st.
  - exists 0%nat. simpl. rewrite app_nil_r. auto.
  - pose proof (loop_body_calls image st) as C.
    simpl for_each. unfold bind.
    destruct (loop_body w image st) as [st1 [[] | e]]; cbn [fst] in C.
    + destruct (IH st1) as (n & Hn & Hc & Hr).
      exists (S n). split; [simpl; lia |]. split.
      * rewrite Hc, C, <- app_assoc. f_equal.
        change (take (S n) (image :: images)) with (image :: take n images).
        change (omap entry_argv (image :: take n images))
          with (match entry_argv image with
                | Some cmd => cmd :: omap entry_argv (take n images)
                | None => omap entry_argv (take n images)
                end).
        now destruct (entry_argv image).
      * intros H. simpl. f_equal. exact (Hr H).
    + exists 1%nat. split; [simpl; lia |]. split; [| discriminate].
      cbn [fst]. rewrite C. reflexivity.
Qed.

(** The commands of a whole run over a list of entries. *)
Lemma main_calls (top : gmap string pyval) (images : list pyval) :
  path_exists w SOURCE_ICON = true ->
  path_exists w CONTENTS_JSON_PATH = true ->
  json_load w CONTENTS_JSON_PATH = Loaded (PDict top) ->
  top !! "images" = Some (PList images) ->
  exists n : nat,
    (n <= length images)%nat
    /\ map argv (calls (fst (main w initial)))
       = omap entry_argv (take n images)
    /\ (snd (main w initial) = Ok tt -> n = length images).
Proof.
  intros Hs Hm Hl Hk.
  rewrite (main_past_checks w Hs Hm), Hl. cbv zeta. unfold py_get.
  rewrite Hk. unfold py_iter.
  set (st0 := {| stdout := ["Processing icons from ../icon.png..."];
                 calls := [] |}).
  destruct (for_each_calls images st0) as (n & Hn & Hc & Hr).
  exists n. split; [exact Hn |].
  destruct (for_each (loop_body w) images st0) as [st1 [[] | e]];
    cbn [fst snd calls] in *.
  - split; [exact Hc | intros _; now apply Hr].
  - split; [exact Hc | discriminate].
Qed.

(** X4: in every run over a list of entries, returned or aborted, the
    commands issued are those of the entries of an initial segment of the
    manifest, in order: no command without an entry that passes the
    guard and parses, none twice, none out of order; and the segment is
    the whole manifest when the run returns. *)
Theorem calls_follow_manifest (top : gmap string pyval)
    (images : list pyval) :
  path_exists w SOURCE_ICON = true ->
  path_exists w CONTENTS_JSON_PATH = true ->
  json_load w CONTENTS_JSON_PATH = Loaded (PDict top) ->
  top !! "images" = Some (PList images) ->
  exists n : nat,
    (n <= length images)%nat
    /\ map argv (calls (fst (main w initial)))
       = omap entry_argv (take n images)
    /\ (snd (main w initial) = Ok tt -> n = length images).
Proof. exact (main_calls top images). Qed.

Lemma os_path_join_dest (f : string) :
  os_path_join DEST_DIR f
  = if starts_with_slash f then f else DEST_DIR +:+ "/" +:+ f.
Proof.
  destruct f as [| c f]; [reflexivity |].
  destruct c as [[] [] [] [] [] [] [] []]; reflexivity.
Qed.

(** X5: every file the tool is asked to write is named by the filename
    of an entry of the manifest: directly under the asset directory when
    the name is relative (it is appended as it is), and at the name
    itself, outside that directory, when the name starts with a slash. *)
Theorem destinations_come_from_filenames (top : gmap string pyval)
    (images : list pyval) :
  path_exists w SOURCE_ICON = true ->
  path_exists w CONTENTS_JSON_PATH = true ->
  json_load w CONTENTS_JSON_PATH = Loaded (PDict top) ->
  top !! "images" = Some (PList images) ->
  Forall (fun c =>
            exists (d : gmap string pyval) (f : string),
              In (PDict d) images
              /\ field d "filename" = PStr f
              /\ call_dest c
                 = if starts_with_slash f then f
                   else DEST_DIR +:+ "/" +:+ f)
    (calls (fst (main w initial))).
Proof.
  intros Hs Hm Hl Hk.
  destruct (main_calls top images Hs Hm Hl Hk) as (n & _ & Hc & _).
  apply List.Forall_forall. intros c Hin.
  apply (in_map argv) in Hin. rewrite Hc in Hin.
  apply list_elem_of_In, list_elem_of_omap in Hin.
  destruct Hin as (image & Himg & Hcmd).
  apply (subseteq_take n images), list_elem_of_In in Himg.
  unfold entry_argv in Hcmd.
  destruct image as [| | | | | | d]; try discriminate.
  destruct (renderable (PDict d)); [| discriminate].
  destruct (field d "filename") as [| | | | f | |] eqn:F; try discriminate.
  destruct (pixel_size _ _) as [[width_px height_px] |]; [| discriminate].
  injection Hcmd as Hcmd.
  exists d, f. split; [exact Himg | split; [exact F |]].
  unfold call_dest. rewrite <- Hcmd. cbn [sips_argv List.last].
  apply os_path_join_dest.
Qed.

End AnyRun.

Lemma calls_follow_manifest_witness :
  let images := [entry "a.png" "20x20" "2x"; imageset_entry;
                 entry "b.png" "29" "3x"; entry "c.png" "83.5x83.5" "2x"] in
  let w := world_of (Loaded (manifest images)) (always (Exited 0)) in
  exists n : nat,
    (n <= 4)%nat
    /\ map argv (calls (fst (main w initial)))
       = omap entry_argv (take n images)
    /\ (snd (main w initial) = Ok tt -> n = 4%nat).
Proof.
  intros images w.
  apply (calls_follow_manifest w {["images" := PList images]} images);
    reflexivity.
Defined.

Lemma destinations_come_from_filenames_witness :
  let images := [entry "/tmp/a.png" "20x20" "2x";
                 entry "../b.png" "29x29" "3x"] in
  let w := world_of (Loaded (manifest images)) (always (Exited 0)) in
  Forall (fun c =>
            exists (d : gmap string pyval) (f : string),
              In (PDict d) images
              /\ field d "filename" = PStr f
              /\ call_dest c
                 = if starts_with_slash f then f
                   else DEST_DIR +:+ "/" +:+ f)
    (calls (fst (main w initial))).
Proof.
  intros images w.
  apply (destinations_come_from_filenames w
           {["images" := PList images]} images); reflexivity.
Defined.

(** ** The completion notice *)
Section Notice.
Variable w : world.




End Notice.

(** ** A manifest whose "images" value is not a list *)
Section NotAList.
Variable w : world.

(** X7: when the value under "images" is not a list the tool is never
    called: null, a boolean or a number cannot be iterated (TypeError);
    a non-empty string or object is walked and its first character or
    key has no [get] (AttributeError); an empty string or object is an
    empty manifest and the run completes. *)
Theorem images_not_a_list (top : gmap string pyval) (v : pyval) :
  path_exists w SOURCE_ICON = true ->
  path_exists w CONTENTS_JSON_PATH = true ->
  json_load w CONTENTS_JSON_PATH = Loaded (PDict top) ->
  top !! "images" = Some v ->
  (forall l, v <> PList l) ->
  main w initial
  = if walks_without_list v then
      if truthy v then
        ({| stdout := ["Processing icons from ../icon.png..."];
            calls := [] |}, Raise AttributeError)
      else
        ({| stdout := ["Processing icons from ../icon.png...";
                       "Icon generation complete!"];
            calls := [] |}, Ok tt)
    else
      ({| stdout := ["Processing icons from ../icon.png..."];
          calls := [] |}, Raise TypeError).
Proof.
  intros Hs Hm Hl Hk Hv.
  rewrite (main_past_checks w Hs Hm), Hl. cbv zeta. unfold py_get.
  rewrite Hk.
  destruct v as [| b | n | f | s | l | d]; try reflexivity.
  - destruct s as [| c s]; reflexivity.
  - now destruct (Hv l).
  - cbn [py_iter walks_without_list truthy].
    destruct (decide (d = ∅)) as [-> | Hd].
    + rewrite map_to_list_empty. reflexivity.
    + rewrite bool_decide_eq_false_2 by exact Hd. cbn [negb].
      destruct (map_to_list d) as [| [k x] kvs] eqn:E.
      * now apply map_to_list_empty_iff in E.
      * reflexivity.
Qed.

End NotAList.

Lemma images_not_a_list_witness :
  let run (v : pyval) :=
    main (world_of (Loaded (PDict {["images" := v]})) (always (Exited 0)))
      initial in
  run PNone
  = ({| stdout := ["Processing icons from ../icon.png..."]; calls := [] |},
     Raise TypeError)
  /\ run (PStr "20x20")
     = ({| stdout := ["Processing icons from ../icon.png..."]; calls := [] |},
        Raise AttributeError)
  /\ run (PDict ∅)
     = ({| stdout := ["Processing icons from ../icon.png...";
                      "Icon generation complete!"];
           calls := [] |}, Ok tt).
Proof.
  intros run. split; [| split].
  - exact (images_not_a_list
             (world_of (Loaded (PDict {["images" := PNone]}))
                (always (Exited 0)))
             {["images" := PNone]} PNone eq_refl eq_refl eq_refl eq_refl
             ltac:(discriminate)).
  - exact (images_not_a_list
             (world_of (Loaded (PDict {["images" := PStr "20x20"]}))
                (always (Exited 0)))
             {["images" := PStr "20x20"]} (PStr "20x20")
             eq_refl eq_refl eq_refl eq_refl ltac:(discriminate)).
  - pose proof (images_not_a_list
                  (world_of (Loaded (PDict {["images" := PDict ∅]}))
                     (always (Exited 0)))
                  {["images" := PDict ∅]} (PDict ∅)
                  eq_refl eq_refl eq_refl eq_refl ltac:(discriminate)) as H.
    vm_compute in H. vm_compute. exact H.
Defined.

Import PyLib Assets Guards.

(** ** Histories: guards that hold along a whole run *)
Section Histories.

Lemma guarded_from_spec (P : guard) (evs seen : list event) :
  guarded_from P seen evs
  <-> (forall pre ev post, evs = pre ++ ev :: post -> P (seen ++ pre) ev).
Proof.
  revert seen. induction evs as [| e evs IH]; intros seen; simpl.
  - split; [| auto]. intros _ [| ? ?] ? ? E; discriminate E.
  - rewrite IH. split.
    + intros [H0 H] [| x pre] ev post E; injection E as E1 E2; subst.
      * now rewrite app_nil_r.
      * change (seen ++ x :: pre) with (seen ++ [x] ++ pre).
        rewrite app_assoc. exact (H _ _ _ eq_refl).
    + intros H. split.
      * rewrite <- (app_nil_r seen). exact (H [] e evs eq_refl).
      * intros pre ev post ->. rewrite <- app_assoc.
        exact (H (e :: pre) ev post eq_refl).
Qed.

Lemma always_preceded_guarded (P : guard) (evs : list event) :
  guarded_from P [] evs -> always_preceded P evs.
Proof.
  intros H pre ev post E.
  exact (proj1 (guarded_from_spec P evs []) H pre ev post E).
Qed.

Lemma always_preceded_nil (P : guard) : always_preceded P [].
Proof. intros [| ? ?] ? ? E; discriminate E. Qed.

Lemma always_preceded_app (P : guard) (old new : list event) :
  monotone P ->
  always_preceded P old -> always_preceded P new ->
  always_preceded P (old ++ new).
Proof.
  intros M Ho Hn pre ev post E.
  destruct (app_eq_app _ _ _ _ E) as [l [[E1 E2] | [E1 E2]]].
  - destruct l as [| x l]; simpl in E2.
    + rewrite app_nil_r in E1. subst pre.
      rewrite <- (app_nil_r old). apply M.
      now apply (Hn [] ev post).
    + injection E2 as <- ->. now apply (Ho pre ev l).
  - subst pre. apply M. now apply (Hn l ev post).
Qed.

Lemma last_monotone (old pre : list event) (ev : event) :
  last pre = Some ev -> last (old ++ pre) = Some ev.
Proof. intros H. rewrite last_app, H. reflexivity. Qed.

Lemma compress_guard_monotone (directory : string) :
  monotone (compress_guard directory).
Proof.
  intros old pre [p a | p a | [d | src dst | path contents | p | p | p mode
                              | p format quality optimize | p] error];
    simpl; auto using last_monotone.
  - intros (f & a & b & -> & H1 & H2 & H3).
    exists f, a, b. repeat split; apply in_or_app; now right.
  - intros [-> H]. split; [reflexivity | now apply last_monotone].
  - intros (f & -> & E & H). exists f.
    repeat split; [exact E | now apply last_monotone].
  - intros H. apply in_or_app. now right.
Qed.

Lemma migrate_guard_monotone (source_dir assets_dir : string) :
  monotone (migrate_guard source_dir assets_dir).
Proof.
  intros old pre [p a | p a | [d | src dst | path contents | p | p | p mode
                              | p format quality optimize | p] error];
    simpl; auto using last_monotone.
  - intros (f & -> & -> & H). exists f.
    repeat split. now apply last_monotone.
  - intros (f & -> & -> & H). exists f.
    repeat split. now apply last_monotone.
  - intros (f & -> & H1 & H2). exists f.
    repeat split; [apply in_or_app; now right | now apply last_monotone].
Qed.

End Histories.

(** ** compress_images.py *)
Section Compress.
Variable h : host.

Ltac step_host :=
  match goal with
  | |- context [exists_now h ?t ?p] =>
      let a := fresh "found" in destruct (exists_now h t p) eqn:a
  | |- context [perform h ?t ?c] =>
      let a := fresh "err" in destruct (perform h t c) eqn:a
  | |- context [getsize_now h ?t ?p] =>
      let a := fresh "size" in destruct (getsize_now h t p) eqn:a
  | |- context [py_true_div ?x ?y] =>
      let a := fresh "kb" in destruct (py_true_div x y) eqn:a
  end;
  cbn [history printed fst snd negb].

Ltac run_script :=
  unfold try_except, with_image, andthen, os_path_exists, os_path_getsize,
    invoke, say, pure, skip, note;
  cbn [history printed fst snd negb];
  repeat step_host.

(** One file: the events it adds, whatever the host answers. *)
Lemma compress_one_new (directory filename : string) (st : run) :
  exists new,
    history (fst (compress_one h directory filename st)) = history st ++ new
    /\ snd (compress_one h directory filename st) = Returns tt
    /\ guarded_from (compress_guard directory) [] new
    /\ exists_checked new = [os_path_join directory filename]
    /\ opened new = closed new.
Proof.
  unfold compress_one. run_script.
  all: rewrite <- ?app_assoc; eexists; split; [reflexivity |];
    split; [reflexivity |]; split; [| split; reflexivity].
  all: cbn [guarded_from compress_guard app last].
  all: repeat split; try reflexivity.
  all: try (exists filename; repeat split; reflexivity).
  all: try (cbn [In]; auto 20; fail).
  all: exists filename; eexists; eexists; repeat split; cbn [In]; eauto 20.
Qed.

Lemma compress_files_new (directory : string) (files : list string) :
  forall st,
  exists new,
    history (fst (for_files (compress_one h directory) files st))
    = history st ++ new
    /\ snd (for_files (compress_one h directory) files st) = Returns tt
    /\ always_preceded (compress_guard directory) new
    /\ exists_checked new = map (os_path_join directory) files
    /\ opened new = closed new.
Proof.
  induction files as [| f files IH]; intros st.
  - exists []. simpl. rewrite app_nil_r.
    repeat split. apply always_preceded_nil.
  - destruct (compress_one_new directory f st) as (new1 & H1 & R1 & G1 & X1 & C1).
    simpl for_files. unfold andthen.
    destruct (compress_one h directory f st) as [st1 r1]. simpl in H1, R1.
    subst r1.
    destruct (IH st1) as (new2 & H2 & R2 & G2 & X2 & C2).
    exists (new1 ++ new2). rewrite H2, H1, <- app_assoc.
    split; [reflexivity |]. split; [exact R2 |]. split; [| split].
    + apply always_preceded_app;
        [apply compress_guard_monotone
        | now apply always_preceded_guarded | exact G2].
    + unfold exists_checked in *. rewrite omap_app, X1, X2. reflexivity.
    + unfold opened, closed in *.
      rewrite !List.filter_app, !length_app. lia.
Qed.

(** X8: compress_images never raises, whatever fails on the way, and it
    looks for each of the three files, in order: an error on one file
    does not keep the next ones from being tried. *)
Theorem compress_visits_every_file :
  snd (compress_images h fresh) = Returns tt
  /\ exists_checked (history (fst (compress_images h fresh)))
     = ["PDFScanner/Resources/Images/Carousel1.png";
        "PDFScanner/Resources/Images/Carousel2.png";
        "PDFScanner/Resources/Images/Carousel3.png"].
Proof.
  unfold compress_images.
  destruct (compress_files_new compress_directory compress_files fresh)
    as (new & H & R & _ & X & _).
  split; [exact R |]. rewrite H. exact X.
Qed.

(** X9: in every run of compress_images each call comes only after what
    it depends on: a file is opened right after it was found, converted
    right after it was opened, saved as JPEG under the new name right
    after it was converted; the original is removed only after the save
    succeeded and both sizes were read; nothing else is removed, no
    directory is made, nothing is copied. *)
Theorem compress_effects_are_guarded :
  always_preceded (compress_guard compress_directory)
    (history (fst (compress_images h fresh))).
Proof.
  unfold compress_images.
  destruct (compress_files_new compress_directory compress_files fresh)
    as (new & H & _ & G & _ & _).
  rewrite H. exact G.
Qed.

(** X10: every image that compress_images opens is closed again, also
    when the conversion, the save, a size or the removal fails. *)
Theorem compress_closes_what_it_opens :
  opened (history (fst (compress_images h fresh)))
  = closed (history (fst (compress_images h fresh))).
Proof.
  unfold compress_images.
  destruct (compress_files_new compress_directory compress_files fresh)
    as (new & H & _ & _ & _ & C).
  rewrite H. exact C.
Qed.

End Compress.

(** ** migrate_images.py *)
Section Migrate.
Variable h : host.

Ltac step_host :=
  match goal with
  | |- context [exists_now h ?t ?p] =>
      let a := fresh "found" in destruct (exists_now h t p) eqn:a
  | |- context [perform h ?t ?c] =>
      let a := fresh "err" in destruct (perform h t c) eqn:a
  end;
  cbn [history printed fst snd negb].

Ltac run_script :=
  unfold andthen, os_path_exists, invoke, say, skip, note;
  cbn [history printed fst snd negb];
  repeat step_host.

Lemma migrate_one_new (source_dir assets_dir image_file : string) (st : run) :
  exists new,
    history (fst (migrate_one h source_dir assets_dir image_file st))
    = history st ++ new
    /\ guarded_from (migrate_guard source_dir assets_dir) [] new
    /\ migrate_result
         (snd (migrate_one h source_dir assets_dir image_file st)) new
         [imageset_dir assets_dir image_file;
          os_path_join source_dir image_file].
Proof.
  unfold migrate_one. run_script.
  all: rewrite <- ?app_assoc; eexists; split; [reflexivity |].
  all: split; [| split; [reflexivity | try reflexivity; eexists; reflexivity]].
  all: cbn [guarded_from migrate_guard app last].
  all: repeat split; try reflexivity.
  all: try (exists image_file; repeat split; try reflexivity;
            cbn [In]; auto 20; fail).
Qed.

Lemma migrate_images_new (source_dir assets_dir : string)
    (images : list string) :
  forall st,
  exists new,
    history (fst (for_files (migrate_one h source_dir assets_dir) images st))
    = history st ++ new
    /\ always_preceded (migrate_guard source_dir assets_dir) new
    /\ migrate_result
         (snd (for_files (migrate_one h source_dir assets_dir) images st)) new
         (flat_map (fun f => [imageset_dir assets_dir f;
                              os_path_join source_dir f]) images).
Proof.
  induction images as [| f images IH]; intros st.
  - exists []. simpl. rewrite app_nil_r.
    repeat split. apply always_preceded_nil.
  - destruct (migrate_one_new source_dir assets_dir f st) as (new1 & H1 & G1 & R1).
    simpl for_files. unfold andthen.
    destruct (migrate_one h source_dir assets_dir f st) as [st1 [[] | e]];
      cbn [fst snd] in H1, R1.
    + destruct (IH st1) as (new2 & H2 & G2 & R2).
      exists (new1 ++ new2). rewrite H2, H1, <- app_assoc.
      split; [reflexivity |]. split.
      * apply always_preceded_app;
          [apply migrate_guard_monotone
          | now apply always_preceded_guarded | exact G2].
      * destruct R1 as [F1 X1].
        destruct (snd (for_files _ images st1)) as [[] | e];
          unfold migrate_result, failures, exists_checked in *.
        -- destruct R2 as [F2 X2].
           rewrite !omap_app, F1, F2, X1, X2. split; reflexivity.
        -- destruct R2 as [F2 [c L2]].
           rewrite omap_app, F1, F2. split; [reflexivity |].
           exists c. now apply last_monotone.
    + exists new1. cbn [fst snd]. split; [exact H1 |]. split; [| exact R1].
      now apply always_preceded_guarded.
Qed.

(** X11: in every run of migrate_to_assets each call comes only after
    what it depends on: a directory is made right after it was found
    missing, an image is copied into its image set right after it was
    found, the manifest is written right after the copy succeeded, and
    the original is removed right after the manifest was written, the
    copy having succeeded; no image is opened or saved. *)
Theorem migrate_effects_are_guarded :
  always_preceded (migrate_guard migrate_source_dir migrate_assets_dir)
    (history (fst (migrate_to_assets h fresh))).
Proof.
  unfold migrate_to_assets.
  destruct (migrate_images_new migrate_source_dir migrate_assets_dir
              migrate_images fresh) as (new & H & G & _).
  rewrite H. exact G.
Qed.

(** X12: migrate_to_assets has no handler: it returns exactly when no
    call failed, and then it has looked for the image set and for the
    source of each of the three images, in order; otherwise exactly one
    call failed, nothing was done after it, and its error is raised. *)
Theorem migrate_stops_at_first_failure :
  let st := fst (migrate_to_assets h fresh) in
  match snd (migrate_to_assets h fresh) with
  | Returns _ =>
      failures (history st) = []
      /\ exists_checked (history st)
         = ["PDFScanner/Assets.xcassets/Carousel1.imageset";
            "PDFScanner/Resources/Images/Carousel1.jpg";
            "PDFScanner/Assets.xcassets/Carousel2.imageset";
            "PDFScanner/Resources/Images/Carousel2.jpg";
            "PDFScanner/Assets.xcassets/Carousel3.imageset";
            "PDFScanner/Resources/Images/Carousel3.jpg"]
  | Raises e =>
      failures (history st) = [e]
      /\ exists c, last (history st) = Some (Did c (Some e))
  end.
Proof.
  unfold migrate_to_assets.
  destruct (migrate_images_new migrate_source_dir migrate_assets_dir
              migrate_images fresh) as (new & H & _ & R).
  cbv zeta. rewrite H. exact R.
Qed.

End Migrate.

(** ** The manifest of an image set, read by the icon script *)
Section ImageSetManifest.

(** X13: the manifest migrate_images.py writes beside an image has three
    entries and none of them passes the guard of the icon script (the
    first has a file name and a scale but no size, the others have no
    file name): the loop of generate_icons.py over it calls the tool for
    none, prints nothing and raises nothing, whatever the file name. *)
Theorem imageset_manifest_renders_nothing (w : world) (image_file : string)
    (st : state) :
  exists (top : gmap string pyval) (images : list pyval),
    imageset_contents image_file = PDict top
    /\ top !! "images" = Some (PList images)
    /\ length images = 3%nat
    /\ List.filter renderable images = []
    /\ for_each (loop_body w) images st = (st, Ok tt).
Proof.
  eexists. eexists. split; [reflexivity |]. split; [reflexivity |].
  split; [reflexivity |].
  assert (R : forall d, field d "size" = PNone -> renderable (PDict d) = false).
  { intros d H. unfold renderable. rewrite H. simpl.
    now rewrite andb_false_r. }
  split.
  - cbn [List.filter]. rewrite !R by reflexivity. reflexivity.
  - unfold for_each, bind. rewrite !loop_body_dict, !R by reflexivity.
    reflexivity.
Qed.

End ImageSetManifest.

(** ** The name of the compressed file *)
Section NewName.

Lemma rfind_from_bounds (c : ascii) (s : string) :
  forall i last,
    -1 <= last < i ->
    last <= rfind_from c s i last < i + Z.of_nat (String.length s).
Proof.
  induction s as [| a s IH]; intros i last H; simpl rfind_from.
  - simpl. lia.
  - cbn [String.length]. rewrite Nat2Z.inj_succ.
    destruct (Ascii.eqb a c).
    + specialize (IH (i + 1) i). lia.
    + specialize (IH (i + 1) last). lia.
Qed.

Lemma rfind_bounds (c : ascii) (s : string) :
  -1 <= rfind c s < Z.of_nat (String.length s).
Proof.
  unfold rfind. pose proof (rfind_from_bounds c s 0 (-1)). lia.
Qed.

Lemma substring_all (s : string) : substring 0 (String.length s) s = s.
Proof. induction s as [| a s IH]; simpl; [reflexivity | now rewrite IH]. Qed.

Lemma substring_split (s : string) :
  forall n : nat,
    (n <= String.length s)%nat ->
    substring 0 n s +:+ substring n (String.length s - n) s = s.
Proof.
  induction s as [| a s IH]; intros n H.
  - destruct n; reflexivity.
  - destruct n as [| n].
    + cbn [substring]. rewrite Nat.sub_0_r.
      change (substring 0 (String.length (String a s)) (String a s)
              = String a s).
      apply substring_all.
    + cbn [substring String.length Nat.sub].
      change (String a (substring 0 n s
                        +:+ substring n (String.length s - n) s)
              = String a s).
      simpl in H. rewrite IH by lia. reflexivity.
Qed.

Lemma append_empty_r (s : string) : s +:+ EmptyString = s.
Proof.
  induction s as [| a s IH]; [reflexivity |].
  change (String a (s +:+ EmptyString) = String a s). now rewrite IH.
Qed.

Lemma append_cancel_l (a b c : string) : a +:+ b = a +:+ c -> b = c.
Proof.
  induction a as [| x a IH]; [auto |].
  change (String x (a +:+ b) = String x (a +:+ c) -> b = c).
  intros [= H]. now apply IH.
Qed.

(** [splitext] cuts a path in two parts and loses nothing. *)
Lemma splitext_join (p : string) :
  fst (splitext p) +:+ snd (splitext p) = p.
Proof.
  unfold splitext.
  pose proof (rfind_bounds "/" p) as Hs.
  pose proof (rfind_bounds "." p) as Hd.
  destruct (rfind "/" p <? rfind "." p) eqn:E;
    [| apply append_empty_r].
  apply Z.ltb_lt in E.
  destruct (forallb _ _); [apply append_empty_r |].
  cbn [fst snd]. unfold slice.
  replace (Z.to_nat 0) with 0%nat by reflexivity.
  replace (Z.to_nat (rfind "." p - 0)) with (Z.to_nat (rfind "." p))
    by (f_equal; lia).
  replace (Z.to_nat (Z.of_nat (String.length p) - rfind "." p))
    with (String.length p - Z.to_nat (rfind "." p))%nat by lia.
  apply substring_split. lia.
Qed.

(** X14: the name under which the JPEG is saved is the name of the
    original exactly when the original already has the extension .jpg
    (the save then overwrites the original and the removal deletes the
    result); for the three files of the script the path saved is never
    the path removed. *)
Theorem new_name_same_iff :
  (forall filename : string,
      new_name filename = filename <-> snd (splitext filename) = ".jpg")
  /\ Forall (fun filename =>
               os_path_join compress_directory (new_name filename)
               <> os_path_join compress_directory filename)
       compress_files.
Proof.
  split.
  - intros filename. unfold new_name.
    pose proof (splitext_join filename) as J. split.
    + intros H. rewrite <- J in H at 2.
      symmetry. exact (append_cancel_l _ _ _ H).
    + intros H. rewrite <- J at 2. now rewrite H.
  - repeat (apply Forall_cons; split; [vm_compute; discriminate |]).
    apply Forall_nil. exact I.
Qed.

End NewName.
